(** * addWatermarkLib: the [POST /addWatermark] endpoint of functions/watermark.js

    A shallow embedding of the request handler, its font loader and the
    per-page watermark placement, followed by the properties the
    specification states about them.

    - JavaScript values are an inductive type [value]; numbers are IEEE
      binary64 floats ([PrimFloat.float]), objects are finite maps from
      property names to values.
    - The module-level variables [sarabunFontBytes] and [sarabunFontLoaded]
      are the record [globals], threaded through a small monad [M] that
      also collects the calls made to the outside world ([event]) and
      carries JavaScript exceptions ([Throw]).
    - pdf-lib, fontkit, Buffer and the JavaScript engine's number/string
      conversions are not part of the repository: they are the fields of
      the class [Collaborators], and every theorem holds for all of them.
    - Requests are handled one at a time.  The top-level
      [if (!sarabunFontLoaded) { loadSarabunFont(); }] is the same loader
      run once before any request; the theorems start from arbitrary
      globals, so from whatever it left behind. *)

From Stdlib Require Import PrimFloat Ascii.
From stdpp Require Import base option list gmap strings pretty.

Set Warnings "-inexact-float,-register-all".

(** ** JavaScript values *)

Inductive value :=
| VUndefined
| VNull
| VBool (b : bool)
| VNum (n : float)
| VStr (s : string)
| VArr (l : list value)
| VObj (o : gmap string value).

(** An object as the code sees it: property name to value. *)
Abbreviation object := (gmap string value).

Definition bytes := list Byte.byte.

(** [o.k]: a missing property reads as [undefined]. *)
Definition get (k : string) (o : object) : value := default VUndefined (o !! k).

(** ToBoolean: [undefined], [null], [false], [0], [-0], [NaN] and [""] are
    falsy, everything else is truthy. *)
Definition ToBoolean (v : value) : bool :=
  match v with
  | VUndefined | VNull => false
  | VBool b => b
  | VNum n => negb (is_zero n || is_nan n)
  | VStr s => match s with "" => false | _ => true end
  | VArr _ | VObj _ => true
  end.

(** [a || b] *)
Definition js_or (a b : value) : value := if ToBoolean a then a else b.

(** The properties ["0"], ["1"], ... of an array or a string. *)
Definition index_entries {A} (f : A → value) (l : list A) : list (string * value) :=
  imap (λ i x, (pretty i, f x)) l.

(** The own enumerable properties that an object spread [...v] copies:
    those of an object, the indices of an array or of a string (one
    character each), nothing for [undefined], [null], booleans and
    numbers. *)
Definition own_properties (v : value) : object :=
  match v with
  | VObj o => o
  | VArr l => list_to_map (index_entries id l)
  | VStr s => list_to_map (index_entries (λ c, VStr (String c "")) (String.list_ascii_of_string s))
  | _ => ∅
  end.

(** Index properties start with a digit; the option names do not. *)
Definition is_digit (c : ascii) : bool :=
  existsb (Ascii.eqb c) ["0"; "1"; "2"; "3"; "4"; "5"; "6"; "7"; "8"; "9"]%char.

Definition digit_first (s : string) : bool :=
  match s with
  | EmptyString => true
  | String c _ => is_digit c
  end.

(** [{ ...a, ...b }] for an object [a]: the properties of [b] win. *)
Definition spread (a : object) (b : value) : object := own_properties b ∪ a.

(** ** Exceptions and the outside world *)

(** A thrown [Error]; the code only ever reads its [message]. *)
Record Error := { message : string }.

(** How a call completes: it returns or it throws. *)
Inductive completion (A : Type) :=
| Return (a : A)
| Throw (e : Error).
Arguments Return {A} a.
Arguments Throw {A} e.

(** Sequencing of calls: the first one that throws ends it. *)
#[export] Instance completion_ret : MRet completion := λ A a, Return a.

#[export] Instance completion_bind : MBind completion := λ A B f c,
  match c with
  | Return a => f a
  | Throw e => Throw e
  end.

#[export] Instance completion_fmap : FMap completion := λ A B f c,
  match c with
  | Return a => Return (f a)
  | Throw e => Throw e
  end.

(** pdf-lib's [rgb(r, g, b)] colour object. *)
Inductive Color := rgb (red green blue : float).

(** The options object handed to [page.drawText]. *)
Record DrawTextOptions (Font Rot : Type) := {
  draw_x : float;
  draw_y : float;
  draw_size : value;
  draw_opacity : value;
  draw_rotate : Rot;
  draw_font : Font;
  draw_color : Color
}.
Arguments draw_x {Font Rot} _.
Arguments draw_y {Font Rot} _.
Arguments draw_size {Font Rot} _.
Arguments draw_opacity {Font Rot} _.
Arguments draw_rotate {Font Rot} _.
Arguments draw_font {Font Rot} _.
Arguments draw_color {Font Rot} _.

(** A loaded [PDFDocument]: its page objects, and everything else. *)
Record PDFDocument (Ctx Page : Type) := {
  doc_context : Ctx;
  doc_pages : list Page
}.
Arguments doc_context {Ctx Page} _.
Arguments doc_pages {Ctx Page} _.

(** The code the handler calls but the repository does not contain: the
    JavaScript engine's number/string conversions and the [TypeError] it
    throws for an object that has no primitive value (V8: "Cannot convert
    object to primitive value"), Node's [Buffer], and pdf-lib with
    fontkit.  Every call that can throw returns a [completion].
    [drawText] changes the page it is called on; [registerFontkit] and
    [embedFont] change the rest of the document. *)
Class Collaborators := {
  NumberToString : float → string;
  StringToNumber : string → float;
  TypeError_to_primitive : Error;
  PDFContext : Type;
  PDFPage : Type;
  PDFFont : Type;
  Rotation : Type;
  Buffer_from_base64 : value → completion bytes;
  Buffer_toString_base64 : bytes → string;
  PDFDocument_load : bytes → completion (PDFDocument PDFContext PDFPage);
  registerFontkit : PDFContext → completion PDFContext;
  embedFont : PDFContext → option bytes → completion (PDFContext * PDFFont);
  getSize : PDFPage → float * float;
  degrees : value → completion Rotation;
  widthOfTextAtSize : PDFFont → value → value → completion float;
  drawText :
    PDFPage → value → DrawTextOptions PDFFont Rotation → completion PDFPage;
  save : PDFContext → list PDFPage → completion bytes
}.

(** The module-level variables of watermark.js. *)
Record globals := {
  sarabunFontBytes : option bytes;
  sarabunFontLoaded : bool
}.

(** What [res.status(..).json(..)] sends. *)
Record response := {
  status : nat;
  json : value
}.

(** The globals of a fresh process, before the font was ever read. *)
Definition cold_start : globals :=
  {| sarabunFontBytes := None; sarabunFontLoaded := false |}.

(** ** A small executable set of collaborators

    Used to run the handler on concrete requests.  A "document" is the byte
    [%] followed by one byte per A4 page; the font measures every character
    as half the font size; everything insists on the argument types pdf-lib
    documents.  The number/string conversions are stand-ins: no request
    below puts a number where a string is expected. *)
Module Demo.

Record page := {
  width : float;
  height : float;
  content : list (value * DrawTextOptions bytes float)
}.

Definition type_error (what : string) : Error :=
  {| message := what +:+ " has the wrong type" |}.

Definition decode (v : value) : completion bytes :=
  match v with
  | VStr s => Return (String.list_byte_of_string s)
  | _ => Throw (type_error "Buffer.from argument")
  end.

Definition load (b : bytes) : completion (PDFDocument (list bytes) page) :=
  match b with
  | Byte.x25 :: rest =>
      Return {| doc_context := [];
                doc_pages := map (λ _, {| width := 595; height := 842; content := [] |})
                               rest |}
  | _ => Throw {| message := "No PDF header found" |}
  end.

Definition embed (ctx : list bytes) (b : option bytes)
  : completion (list bytes * bytes) :=
  match b with
  | Some b => Return (b :: ctx, b)
  | None => Throw (type_error "font")
  end.

Definition angle (v : value) : completion float :=
  match v with
  | VNum n => Return n
  | _ => Throw (type_error "degreeAngle")
  end.

Definition text_width (font : bytes) (text size : value) : completion float :=
  match text, size with
  | VStr s, VNum n =>
      Return (fold_left (λ acc _, acc + n / 2)%float (String.list_ascii_of_string s)
                0%float)
  | VStr _, _ => Throw (type_error "size")
  | _, _ => Throw (type_error "text")
  end.

Definition draw (p : page) (text : value) (o : DrawTextOptions bytes float)
  : completion page :=
  match text with
  | VStr _ =>
      Return {| width := width p; height := height p;
                content := content p ++ [(text, o)] |}
  | _ => Throw (type_error "text")
  end.

(** Like pdf-lib's [save()], which by default gives a document without
    pages one blank page. *)
Definition serialize (ctx : list bytes) (pages : list page) : completion bytes :=
  match pages with
  | [] => Return [Byte.x25; Byte.x50]
  | _ => Return (Byte.x25 :: map (λ _, Byte.x50) pages)
  end.

#[export] Instance collaborators : Collaborators := {|
  NumberToString := λ n, if is_nan n then "NaN" else "0";
  StringToNumber := λ _, nan;
  TypeError_to_primitive :=
    {| message := "Cannot convert object to primitive value" |};
  PDFContext := list bytes;
  PDFPage := page;
  PDFFont := bytes;
  Rotation := float;
  Buffer_from_base64 := decode;
  Buffer_toString_base64 := String.string_of_list_byte;
  PDFDocument_load := load;
  registerFontkit := Return;
  embedFont := embed;
  getSize := λ p, (width p, height p);
  degrees := angle;
  widthOfTextAtSize := text_width;
  drawText := draw;
  save := serialize
|}.

(** A font file that can be read, and one that cannot. *)
Definition font_bytes : bytes := [Byte.x00; Byte.x01].

Definition font_present (path : string) : completion bytes :=
  Return font_bytes.

Definition font_missing (path : string) : completion bytes :=
  Throw {| message := "ENOENT: no such file or directory, open 'sarabun.ttf'" |}.

Definition warm : globals :=
  {| sarabunFontBytes := Some font_bytes; sarabunFontLoaded := true |}.

Definition a4 : page := {| width := 595; height := 842; content := [] |}.

(** What [load] makes of ["%PP"]. *)
Definition two_pages : PDFDocument (list bytes) page :=
  {| doc_context := []; doc_pages := [a4; a4] |}.

(** The response that carries a document. *)
Definition ok (watermarkedPdfBase64 : string) : response :=
  {| status := 200;
     json := VObj {[ "success" := VBool true;
                     "watermarkedPdfBase64" := VStr watermarkedPdfBase64 ]} |}.

(** A two-page document from Jane Doe, with one option overridden. *)
Definition jane : object :=
  {[ "pdfBase64" := VStr "%PP";
     "firstName" := VStr "Jane";
     "lastName" := VStr "Doe";
     "watermarkOptions" := VObj {[ "opacity" := VNum 0%float ]} ]}.


(** One page, nobody named, and an empty [watermarkLine1]. *)
Definition blank : object :=
  {[ "pdfBase64" := VStr "%P"; "watermarkLine1" := VStr "" ]}.

(** Something that is not a PDF. *)
Definition garbage : object :=
  {[ "pdfBase64" := VStr "hello"; "firstName" := VStr "Jane" ]}.

(** No document at all. *)
Definition no_pdf : object :=
  {[ "firstName" := VStr "Jane"; "lastName" := VStr "Doe" ]}.

End Demo.

(** ** More requests, and collaborators that fail half way *)
Module Cases.

(** An empty string for a document. *)
Definition empty_pdf : object :=
  {[ "pdfBase64" := VStr ""; "firstName" := VStr "Jane" ]}.

(** One page; [null] for the options and [false] for a name. *)
Definition nulls : object :=
  {[ "pdfBase64" := VStr "%P";
     "firstName" := VBool false;
     "watermarkOptions" := VNull ]}.





(** Jane Doe's request with a property and an option nobody reads. *)
Definition jane_with_extras : object :=
  {[ "pdfBase64" := VStr "%PP";
     "firstName" := VStr "Jane";
     "lastName" := VStr "Doe";
     "userId" := VNum 7%float;
     "watermarkOptions" :=
       VObj {[ "opacity" := VNum 0%float; "color" := VStr "red" ]} ]}.

(** The same document and options from somebody else. *)
Definition john : object :=
  {[ "pdfBase64" := VStr "%PP";
     "firstName" := VStr "John";
     "lastName" := VStr "Smith";
     "watermarkOptions" := VObj {[ "opacity" := VNum 0%float ]} ]}.

(** Two pages and no names: line 2 is a single space. *)
Definition anonymous : object := {[ "pdfBase64" := VStr "%PP" ]}.

(** Two pages, nobody named, and sizes of the caller's own. *)
Definition small : object :=
  {[ "pdfBase64" := VStr "%PP";
     "watermarkOptions" :=
       VObj {[ "size" := VNum 30%float; "sizesubtitle" := VNum 12%float ]} ]}.



(** A first name that is an object with a [toString] of its own, with a
    [rotate] that is a string: on one page, and on none. *)
Definition unprintable : object :=
  {[ "pdfBase64" := VStr "%P";
     "firstName" := VObj {[ "toString" := VNum 1%float ]};
     "watermarkOptions" := VObj {[ "rotate" := VStr "45" ]} ]}.


(** The demo collaborators, except that a text of one space cannot be
    drawn. *)
Definition draw_visible (p : Demo.page) (text : value)
    (o : DrawTextOptions bytes float) : completion Demo.page :=
  match text with
  | VStr " " => Throw {| message := "nothing to draw" |}
  | _ => Demo.draw p text o
  end.

Definition strict : Collaborators := {|
  NumberToString := @NumberToString Demo.collaborators;
  StringToNumber := @StringToNumber Demo.collaborators;
  TypeError_to_primitive := @TypeError_to_primitive Demo.collaborators;
  PDFContext := list bytes;
  PDFPage := Demo.page;
  PDFFont := bytes;
  Rotation := float;
  Buffer_from_base64 := Demo.decode;
  Buffer_toString_base64 := String.string_of_list_byte;
  PDFDocument_load := Demo.load;
  registerFontkit := Return;
  embedFont := Demo.embed;
  getSize := λ p, (Demo.width p, Demo.height p);
  degrees := Demo.angle;
  widthOfTextAtSize := Demo.text_width;
  drawText := draw_visible;
  save := Demo.serialize
|}.



End Cases.

(** ** The handler *)

Section Watermark.

Context {C : Collaborators}.

(** What [Array.prototype.join] builds. *)
Definition join_with (sep : string) (l : list string) : string :=
  match l with
  | [] => ""
  | s :: l => fold_left (λ acc t, acc +:+ sep +:+ t) l s
  end.

(** ToString, as a template literal applies it.  An object from a JSON
    body prints as ["[object Object]"] through [Object.prototype.toString],
    unless it has a property [toString] of its own: that is never a
    function, [valueOf] gives back the object, and the conversion throws a
    [TypeError].  An array prints its elements with commas between them,
    [null] as nothing, and throws where an element does. *)
Fixpoint ToString (v : value) : completion string :=
  match v with
  | VUndefined => Return "undefined"
  | VNull => Return "null"
  | VBool true => Return "true"
  | VBool false => Return "false"
  | VNum n => Return (NumberToString n)
  | VStr s => Return s
  | VArr l =>
      join_with "," <$>
      (fix elements (l : list value) : completion (list string) :=
         match l with
         | [] => Return []
         | x :: l =>
             s ← match x with
                 | VUndefined | VNull => Return ""
                 | _ => ToString x
                 end;
             ss ← elements l;
             Return (s :: ss)
         end) l
  | VObj o =>
      match o !! "toString" with
      | Some _ => Throw TypeError_to_primitive
      | None => Return "[object Object]"
      end
  end.

(** ToNumber, as [/] applies it to an operand.  For an object or an array
    [valueOf] gives back the object itself, so the number is that of its
    string, if it has one. *)
Definition ToNumber (v : value) : completion float :=
  match v with
  | VUndefined => Return nan
  | VNull => Return 0%float
  | VBool true => Return 1%float
  | VBool false => Return 0%float
  | VNum n => Return n
  | VStr s => Return (StringToNumber s)
  | VArr _ | VObj _ => StringToNumber <$> ToString v
  end.

(** [a / b] for a number [b]. *)
Definition js_div (a : value) (b : float) : completion float :=
  (λ n, (n / b)%float) <$> ToNumber a.

(** The calls the handler makes to the outside world, in order. *)
Inductive event :=
| fs_readFile (path : string)
| console_log (msg : string)
| console_error (msg : string) (e : Error)
| call_Buffer_from (v : value)
| call_PDFDocument_load (b : bytes)
| call_registerFontkit
| call_embedFont (b : option bytes)
| call_drawText (page : nat) (text : value) (o : DrawTextOptions PDFFont Rotation)
| call_save.

(** ** The monad of the handler: globals, a trace of calls, exceptions *)

Definition M (A : Type) : Type := globals → globals * list event * completion A.

#[export] Instance M_ret : MRet M := λ A a g, (g, [], Return a).

#[export] Instance M_bind : MBind M := λ A B f m g,
  match m g with
  | (g1, t1, Throw e) => (g1, t1, Throw e)
  | (g1, t1, Return a) =>
      match f a g1 with
      | (g2, t2, r) => (g2, t1 ++ t2, r)
      end
  end.

Definition throw {A} (e : Error) : M A := λ g, (g, [], Throw e).

(** [try { m } catch (error) { h error }] *)
Definition try_catch {A} (m : M A) (h : Error → M A) : M A := λ g,
  match m g with
  | (g1, t1, Return a) => (g1, t1, Return a)
  | (g1, t1, Throw e) =>
      match h e g1 with
      | (g2, t2, r) => (g2, t1 ++ t2, r)
      end
  end.

Definition emit (ev : event) : M unit := λ g, (g, [ev], Return tt).

(** A call to a collaborator: it is recorded, then it returns or throws. *)
Definition call {A} (ev : event) (c : completion A) : M A := λ g, (g, [ev], c).

(** A collaborator computation with no effect of its own. *)
Definition lift {A} (c : completion A) : M A := λ g, (g, [], c).

Definition read {A} (f : globals → A) : M A := λ g, (g, [], Return (f g)).

Definition assign_sarabunFontBytes (b : bytes) : M unit := λ g,
  ({| sarabunFontBytes := Some b; sarabunFontLoaded := sarabunFontLoaded g |},
   [], Return tt).

Definition assign_sarabunFontLoaded (b : bool) : M unit := λ g,
  ({| sarabunFontBytes := sarabunFontBytes g; sarabunFontLoaded := b |},
   [], Return tt).

(** ** watermark.js *)

Definition fontPath : string := "sarabun.ttf".

(** [async function loadSarabunFont()], given what [fs.readFile] does now. *)
Definition loadSarabunFont (readFile : string → completion bytes) : M unit :=
  try_catch
    (b ← call (fs_readFile fontPath) (readFile fontPath);
     assign_sarabunFontBytes b;;
     assign_sarabunFontLoaded true;;
     emit (console_log "Sarabun font loaded successfully."))
    (λ error,
       emit (console_error
               ("Error loading Sarabun font file at " +:+ fontPath +:+ ":") error);;
       throw {| message := "Failed to load Sarabun font: " +:+ message error |}).

Definition defaultWatermarkOptions : object :=
  {[ "size" := VNum 65%float;
     "opacity" := VNum 0.2%float;
     "rotate" := VNum (-45)%float;
     "sizesubtitle" := VNum 40%float ]}.

(** [{ ...defaultWatermarkOptions, ...watermarkOptions }] *)
Definition finalWatermarkOptions (watermarkOptions : value) : object :=
  spread defaultWatermarkOptions watermarkOptions.

(** [watermarkLine1 || 'CONFIDENTIAL'] *)
Definition finalWatermarkLine1 (watermarkLine1 : value) : value :=
  js_or watermarkLine1 (VStr "CONFIDENTIAL").

(** [`${firstName || ''} ${lastName || ''}`]: the two substitutions are
    converted in turn. *)
Definition finalWatermarkLine2 (firstName lastName : value) : completion value :=
  first ← ToString (js_or firstName (VStr ""));
  last ← ToString (js_or lastName (VStr ""));
  Return (VStr (first +:+ " " +:+ last)).

(** [array.forEach(callback)]; the callback works on the page object in
    place, so the array afterwards holds the pages as the callback left
    them.  An exception in the callback ends the loop. *)
Fixpoint forEach_from {A} (callback : A → nat → M A) (index : nat) (l : list A)
  : M (list A) :=
  match l with
  | [] => mret []
  | a :: l =>
      a' ← callback a index;
      l' ← forEach_from callback (S index) l;
      mret (a' :: l')
  end.

Definition forEach {A} (callback : A → nat → M A) (l : list A) : M (list A) :=
  forEach_from callback 0 l.

(** The callback of [pdfDoc.getPages().forEach]: the two draw calls on one
    page.  [index] only names the page in the trace. *)
Definition watermarkPage (finalWatermarkOptions : object)
    (finalWatermarkLine1 finalWatermarkLine2 : value)
    (mainFont subtitleFont : PDFFont) (page : PDFPage) (index : nat)
  : M PDFPage :=
  let '(width, height) := getSize page in
  let rotateDegrees := get "rotate" finalWatermarkOptions in
  rotationObject ← lift (degrees rotateDegrees);
  line1Width ← lift (widthOfTextAtSize mainFont finalWatermarkLine1
                       (get "size" finalWatermarkOptions));
  let line1Height := get "size" finalWatermarkOptions in
  let pageCenterX := (width / 2)%float in
  let pageCenterY := (height / 2)%float in
  let line1DrawX_unrotated := (pageCenterX - line1Width / 2)%float in
  halfHeight ← lift (js_div line1Height 2);
  let line1DrawY_unrotated := (pageCenterY - halfHeight)%float in
  let options1 :=
    {| draw_x := line1DrawX_unrotated;
       draw_y := line1DrawY_unrotated;
       draw_size := get "size" finalWatermarkOptions;
       draw_opacity := get "opacity" finalWatermarkOptions;
       draw_rotate := rotationObject;
       draw_font := mainFont;
       draw_color := rgb 0.5 0.5 0.5 |} in
  page ← call (call_drawText index finalWatermarkLine1 options1)
            (drawText page finalWatermarkLine1 options1);
  let xOffsetRotated := (-20)%float in
  let yOffsetRotated := (-30)%float in
  let line2DrawX := (line1DrawX_unrotated + xOffsetRotated)%float in
  let line2DrawY := (line1DrawY_unrotated + yOffsetRotated)%float in
  let options2 :=
    {| draw_x := line2DrawX;
       draw_y := line2DrawY;
       draw_size := get "sizesubtitle" finalWatermarkOptions;
       draw_opacity := get "opacity" finalWatermarkOptions;
       draw_rotate := rotationObject;
       draw_font := subtitleFont;
       draw_color := rgb 0.5 0.5 0.5 |} in
  page ← call (call_drawText index finalWatermarkLine2 options2)
            (drawText page finalWatermarkLine2 options2);
  mret page.

(** The [try] block of the handler. *)
Definition try_block (pdfBase64 firstName lastName watermarkLine1
    watermarkOptions : value) : M response :=
  existingPdfBytes ← call (call_Buffer_from pdfBase64) (Buffer_from_base64 pdfBase64);
  pdfDoc ← call (call_PDFDocument_load existingPdfBytes)
             (PDFDocument_load existingPdfBytes);
  context ← call call_registerFontkit (registerFontkit (doc_context pdfDoc));
  fontBytes ← read sarabunFontBytes;
  '(context, customFont) ← call (call_embedFont fontBytes) (embedFont context fontBytes);
  let finalOptions := finalWatermarkOptions watermarkOptions in
  let line1 := finalWatermarkLine1 watermarkLine1 in
  line2 ← lift (finalWatermarkLine2 firstName lastName);
  let mainFont := customFont in
  let subtitleFont := customFont in
  pages ← forEach (watermarkPage finalOptions line1 line2 mainFont subtitleFont)
            (doc_pages pdfDoc);
  modifiedPdfBytes ← call call_save (save context pages);
  let watermarkedPdfBase64 := Buffer_toString_base64 modifiedPdfBytes in
  mret {| status := 200;
          json := VObj {[ "success" := VBool true;
                          "watermarkedPdfBase64" := VStr watermarkedPdfBase64 ]} |}.

(** The font guard that opens the handler: [Some res] is the response it
    returns with, [None] means the handler goes on. *)
Definition font_guard (readFile : string → completion bytes) : M (option response) :=
  loaded ← read sarabunFontLoaded;
  if negb loaded then
    try_catch
      (loadSarabunFont readFile;; mret None)
      (λ error,
         mret (Some {| status := 500;
                       json := VObj {[ "error" := VStr (message error) ]} |}))
  else mret None.

(** The handler from the destructuring of [req.body] on. *)
Definition process_body (body : object) : M response :=
  let pdfBase64 := get "pdfBase64" body in
  let firstName := get "firstName" body in
  let lastName := get "lastName" body in
  let watermarkLine1 := get "watermarkLine1" body in
  let watermarkOptions := get "watermarkOptions" body in
  if negb (ToBoolean pdfBase64) then
    mret {| status := 400;
            json := VObj {[ "error" := VStr "PDF data (pdfBase64) is required." ]} |}
  else
    try_catch
      (try_block pdfBase64 firstName lastName watermarkLine1 watermarkOptions)
      (λ error,
         emit (console_error "Error generating watermarked PDF:" error);;
         mret {| status := 500;
                 json := VObj {[ "error" := VStr "Failed to generate watermarked PDF";
                                 "details" := VStr (message error) ]} |}).

(** [app.post('/addWatermark', async (req, res) => ...)] on [req.body],
    given what [fs.readFile] does during this request. *)
Definition addWatermark (readFile : string → completion bytes) (body : object)
  : M response :=
  guard ← font_guard readFile;
  match guard with
  | Some res => mret res
  | None => process_body body
  end.

(** Serving requests one after the other: each comes with the behaviour of
    [fs.readFile] at its time.  The responses and traces are in order. *)
Fixpoint serve (requests : list ((string → completion bytes) * object)) (g : globals)
  : globals * list (list event * completion response) :=
  match requests with
  | [] => (g, [])
  | (readFile, body) :: requests =>
      match addWatermark readFile body g with
      | (g1, tr, r) =>
          match serve requests g1 with
          | (g2, out) => (g2, (tr, r) :: out)
          end
      end
  end.

(** ** Reading traces *)

(** The [page.drawText] calls of a trace: page, text, options. *)
Definition draw_calls (tr : list event)
  : list (nat * value * DrawTextOptions PDFFont Rotation) :=
  omap (λ ev, match ev with
              | call_drawText i t o => Some (i, t, o)
              | _ => None
              end) tr.

(** The [fs.readFile] calls of a trace. *)
Definition file_reads (tr : list event) : list string :=
  omap (λ ev, match ev with fs_readFile p => Some p | _ => None end) tr.

(** The module's top level, [if (!sarabunFontLoaded) { loadSarabunFont(); }],
    once the promise has settled: [Throw] is a rejection, which the module
    does not look at. *)
Definition startup (readFile : string → completion bytes) : M unit :=
  loaded ← read sarabunFontLoaded;
  if negb loaded then loadSarabunFont readFile else mret tt.

(** What [embedFont] was called with in a trace. *)
Definition embed_calls (tr : list event) : list (option bytes) :=
  omap (λ ev, match ev with call_embedFont b => Some b | _ => None end) tr.

(** The flag is set exactly when bytes are cached. *)
Definition cache_consistent (g : globals) : Prop :=
  sarabunFontLoaded g = true ↔ is_Some (sarabunFontBytes g).

(** The [save] calls of a trace. *)
Definition save_calls (tr : list event) : list unit :=
  omap (λ ev, match ev with call_save => Some tt | _ => None end) tr.

(** The options of the two draw calls on a page, once [degrees] has
    returned [rot], [widthOfTextAtSize] has returned [w] and
    [line1Height / 2] has given [half]. *)
Definition options1 (opts : object) (font : PDFFont) (rot : Rotation) (w half : float)
    (page : PDFPage) : DrawTextOptions PDFFont Rotation :=
  {| draw_x := (fst (getSize page) / 2 - w / 2)%float;
     draw_y := (snd (getSize page) / 2 - half)%float;
     draw_size := get "size" opts;
     draw_opacity := get "opacity" opts;
     draw_rotate := rot;
     draw_font := font;
     draw_color := rgb 0.5 0.5 0.5 |}.

Definition options2 (opts : object) (font : PDFFont) (rot : Rotation) (w half : float)
    (page : PDFPage) : DrawTextOptions PDFFont Rotation :=
  {| draw_x := (fst (getSize page) / 2 - w / 2 + -20)%float;
     draw_y := (snd (getSize page) / 2 - half + -30)%float;
     draw_size := get "sizesubtitle" opts;
     draw_opacity := get "opacity" opts;
     draw_rotate := rot;
     draw_font := font;
     draw_color := rgb 0.5 0.5 0.5 |}.

(** The draw calls of a whole page loop, from page number [k] on. *)
Fixpoint page_calls (opts : object) (l1 l2 : value) (font : PDFFont)
    (rot : Rotation) (w half : float) (k : nat) (pages : list PDFPage) : list event :=
  match pages with
  | [] => []
  | page :: pages =>
      call_drawText k l1 (options1 opts font rot w half page)
      :: call_drawText k l2 (options2 opts font rot w half page)
      :: page_calls opts l1 l2 font rot w half (S k) pages
  end.

(** What the two draw calls make of a page. *)
Definition drawn (opts : object) (l1 l2 : value) (font : PDFFont)
    (rot : Rotation) (w half : float) (page page' : PDFPage) : Prop :=
  ∃ p1, drawText page l1 (options1 opts font rot w half page) = Return p1 ∧
        drawText p1 l2 (options2 opts font rot w half page) = Return page'.

(** What a returning [try] block has done. *)
Definition watermarked (pdf fn ln wl wo : value) (fontBytes : option bytes)
    (tr : list event) (res : response) : Prop :=
  ∃ existingPdfBytes pdfDoc context0 context customFont line2 draws pages out,
    Buffer_from_base64 pdf = Return existingPdfBytes ∧
    PDFDocument_load existingPdfBytes = Return pdfDoc ∧
    registerFontkit (doc_context pdfDoc) = Return context0 ∧
    embedFont context0 fontBytes = Return (context, customFont) ∧
    save context pages = Return out ∧
    tr = [call_Buffer_from pdf; call_PDFDocument_load existingPdfBytes;
          call_registerFontkit; call_embedFont fontBytes] ++ draws ++ [call_save] ∧
    res = {| status := 200;
             json := VObj {[ "success" := VBool true;
                             "watermarkedPdfBase64" :=
                               VStr (Buffer_toString_base64 out) ]} |} ∧
    length pages = length (doc_pages pdfDoc) ∧
    finalWatermarkLine2 fn ln = Return line2 ∧
    ((doc_pages pdfDoc = [] ∧ draws = []) ∨
     ∃ rot w half,
       degrees (get "rotate" (finalWatermarkOptions wo)) = Return rot ∧
       widthOfTextAtSize customFont (finalWatermarkLine1 wl)
         (get "size" (finalWatermarkOptions wo)) = Return w ∧
       js_div (get "size" (finalWatermarkOptions wo)) 2 = Return half ∧
       draws = page_calls (finalWatermarkOptions wo) (finalWatermarkLine1 wl)
                 line2 customFont rot w half 0 (doc_pages pdfDoc) ∧
       Forall2 (drawn (finalWatermarkOptions wo) (finalWatermarkLine1 wl)
                  line2 customFont rot w half)
         (doc_pages pdfDoc) pages).

(** ** Reading a reply *)

(** The document a reply carries, read back the way the handler reads the
    one of a request: the string is base64-decoded, the bytes are parsed. *)
Definition response_document (res : response)
  : completion (PDFDocument PDFContext PDFPage) :=
  existingPdfBytes ← Buffer_from_base64
                       (get "watermarkedPdfBase64" (own_properties (json res)));
  PDFDocument_load existingPdfBytes.

(** What reading a reply back relies on: [Buffer.from(s, 'base64')] undoes
    [toString('base64')], and a document with pages that pdf-lib has saved
    parses into a document with as many pages.  (A document without pages
    is another matter: [save()] gives it a blank page.) *)
Definition base64_round_trip : Prop :=
  ∀ b, Buffer_from_base64 (VStr (Buffer_toString_base64 b)) = Return b.

Definition save_keeps_page_count : Prop :=
  ∀ context pages out,
    pages ≠ [] → save context pages = Return out →
    ∃ doc, PDFDocument_load out = Return doc ∧
           length (doc_pages doc) = length pages.

(** ** Properties *)

Ltac in_list :=
  repeat (first [apply list_elem_of_here | apply list_elem_of_further]).

Ltac run_monad :=
  unfold mbind, M_bind, mret, M_ret, try_catch, call, lift, emit, read, throw,
    assign_sarabunFontBytes, assign_sarabunFontLoaded in *.

(** ** Conversions *)

Lemma ToString_VStr s : ToString (VStr s) = Return s.
Proof. done. Qed.

Lemma ToNumber_VNum n : ToNumber (VNum n) = Return n.
Proof. done. Qed.

(** Half of a number is half of it, whatever the number. *)
Lemma js_div_VNum n b : js_div (VNum n) b = Return (n / b)%float.
Proof. done. Qed.

(** An object with a [toString] of its own has no string and no number. *)
Lemma ToString_own_toString (o : object) :
  is_Some (o !! "toString") → ToString (VObj o) = Throw TypeError_to_primitive.
Proof. intros [v Hv]. simpl. by rewrite Hv. Qed.

Lemma ToNumber_own_toString (o : object) :
  is_Some (o !! "toString") → ToNumber (VObj o) = Throw TypeError_to_primitive.
Proof. intros [v Hv]. unfold ToNumber. simpl. by rewrite Hv. Qed.

(** Line 2 of names that are strings or left out. *)
Lemma finalWatermarkLine2_strings firstName lastName a b :
  firstName = VStr a ∨ firstName = VUndefined ∧ a = "" →
  lastName = VStr b ∨ lastName = VUndefined ∧ b = "" →
  finalWatermarkLine2 firstName lastName = Return (VStr (a +:+ " " +:+ b)).
Proof.
  intros Ha Hb. unfold finalWatermarkLine2, js_or.
  assert (ToString (if ToBoolean firstName then firstName else VStr "") = Return a)
    as ->.
  { destruct Ha as [->|[-> ->]]; [by destruct a|done]. }
  assert (ToString (if ToBoolean lastName then lastName else VStr "") = Return b)
    as ->.
  { destruct Hb as [->|[-> ->]]; [by destruct b|done]. }
  done.
Qed.

(** [watermarkPage] with its sequencing spelled out. *)
Lemma watermarkPage_run opts l1 l2 font page i g :
  watermarkPage opts l1 l2 font font page i g =
  match degrees (get "rotate" opts) with
  | Throw e => (g, [], Throw e)
  | Return rot =>
      match widthOfTextAtSize font l1 (get "size" opts) with
      | Throw e => (g, [], Throw e)
      | Return w =>
          match js_div (get "size" opts) 2 with
          | Throw e => (g, [], Throw e)
          | Return half =>
              let o1 := options1 opts font rot w half page in
              match drawText page l1 o1 with
              | Throw e => (g, [call_drawText i l1 o1], Throw e)
              | Return p1 =>
                  let o2 := options2 opts font rot w half page in
                  (g, [call_drawText i l1 o1; call_drawText i l2 o2],
                   drawText p1 l2 o2)
              end
          end
      end
  end.
Proof.
  unfold watermarkPage, options1, options2. run_monad.
  destruct (getSize page) as [width height]; simpl.
  destruct (degrees _) as [rot|e]; [|done].
  destruct (widthOfTextAtSize _ _ _) as [w|e]; [|done].
  simpl. destruct (js_div _ _) as [half|e]; [|done].
  simpl. destruct (drawText page l1 _) as [p1|e]; [|done].
  simpl. by destruct (drawText p1 l2 _).
Qed.

Lemma forEach_from_cons {A} (f : A → nat → M A) k a l g :
  forEach_from f k (a :: l) g =
  match f a k g with
  | (g1, t1, Throw e) => (g1, t1, Throw e)
  | (g1, t1, Return a') =>
      match forEach_from f (S k) l g1 with
      | (g2, t2, Throw e) => (g2, t1 ++ t2, Throw e)
      | (g2, t2, Return l') => (g2, t1 ++ t2, Return (a' :: l'))
      end
  end.
Proof.
  simpl. run_monad.
  destruct (f a k g) as [[g1 t1] [a'|e]]; [|done].
  destruct (forEach_from f (S k) l g1) as [[g2 t2] [l'|e]]; [|done].
  by rewrite app_nil_r.
Qed.

Lemma draw_calls_app tr1 tr2 :
  draw_calls (tr1 ++ tr2) = draw_calls tr1 ++ draw_calls tr2.
Proof. unfold draw_calls. apply omap_app. Qed.

Lemma file_reads_app tr1 tr2 :
  file_reads (tr1 ++ tr2) = file_reads tr1 ++ file_reads tr2.
Proof. unfold file_reads. apply omap_app. Qed.

Lemma file_reads_page_calls opts l1 l2 font rot w half k pages :
  file_reads (page_calls opts l1 l2 font rot w half k pages) = [].
Proof. revert k. induction pages as [|p pages IH]; intros k; simpl; auto. Qed.

(** The page loop when [degrees], [widthOfTextAtSize] or the halving of the
    size throws: the first page already fails, before any draw call. *)
Lemma forEach_watermark_no_rotation opts l1 l2 font page pages k g e :
  degrees (get "rotate" opts) = Throw e →
  forEach_from (watermarkPage opts l1 l2 font font) k (page :: pages) g =
  (g, [], Throw e).
Proof.
  intros Hrot. rewrite forEach_from_cons, watermarkPage_run. by rewrite Hrot.
Qed.

Lemma forEach_watermark_no_width opts l1 l2 font page pages k g rot e :
  degrees (get "rotate" opts) = Return rot →
  widthOfTextAtSize font l1 (get "size" opts) = Throw e →
  forEach_from (watermarkPage opts l1 l2 font font) k (page :: pages) g =
  (g, [], Throw e).
Proof.
  intros Hrot Hw. rewrite forEach_from_cons, watermarkPage_run.
  by rewrite Hrot, Hw.
Qed.

Lemma forEach_watermark_no_half opts l1 l2 font page pages k g rot w e :
  degrees (get "rotate" opts) = Return rot →
  widthOfTextAtSize font l1 (get "size" opts) = Return w →
  js_div (get "size" opts) 2 = Throw e →
  forEach_from (watermarkPage opts l1 l2 font font) k (page :: pages) g =
  (g, [], Throw e).
Proof.
  intros Hrot Hw Hh. rewrite forEach_from_cons, watermarkPage_run.
  by rewrite Hrot, Hw, Hh.
Qed.

(** The page loop when all three return: the globals are untouched, the
    trace is a prefix of [page_calls], and it is all of it when the loop
    returns, with every page drawn on. *)
Lemma forEach_watermark_run opts l1 l2 font rot w half pages :
  degrees (get "rotate" opts) = Return rot →
  widthOfTextAtSize font l1 (get "size" opts) = Return w →
  js_div (get "size" opts) 2 = Return half →
  ∀ k g, ∃ tr r,
    forEach_from (watermarkPage opts l1 l2 font font) k pages g = (g, tr, r) ∧
    tr `prefix_of` page_calls opts l1 l2 font rot w half k pages ∧
    ∀ pages', r = Return pages' →
      tr = page_calls opts l1 l2 font rot w half k pages ∧
      Forall2 (drawn opts l1 l2 font rot w half) pages pages'.
Proof.
  intros Hrot Hw Hh. induction pages as [|page pages IH]; intros k g.
  - exists [], (Return []). simpl. split; [done|]. split; [done|].
    intros pages' ?; simplify_eq. by split.
  - rewrite forEach_from_cons, watermarkPage_run, Hrot, Hw, Hh. simpl.
    destruct (drawText page l1 _) as [p1|e] eqn:H1.
    + destruct (IH (S k) g) as (tr & r & Hrun & Hpre & Hret).
      destruct (drawText p1 l2 _) as [p2|e] eqn:H2.
      * rewrite Hrun. destruct r as [l'|e].
        -- eexists _, _. split; [done|]. simpl.
           split; [by do 2 apply prefix_cons|].
           intros pages' ?; simplify_eq.
           destruct (Hret l' eq_refl) as [-> Hall].
           split; [done|]. constructor; [by exists p1|done].
        -- eexists _, _. split; [done|]. simpl.
           split; [by do 2 apply prefix_cons|]. done.
      * eexists _, _. split; [done|].
        split; [|done]. do 2 apply prefix_cons. apply prefix_nil.
    + eexists _, _. split; [done|].
      split; [|done]. apply prefix_cons, prefix_nil.
Qed.

(** ** The font loader and the font guard *)

Lemma loadSarabunFont_returns readFile g b :
  readFile fontPath = Return b →
  loadSarabunFont readFile g =
  ({| sarabunFontBytes := Some b; sarabunFontLoaded := true |},
   [fs_readFile fontPath; console_log "Sarabun font loaded successfully."],
   Return tt).
Proof. intros Hread. unfold loadSarabunFont. run_monad. by rewrite Hread. Qed.

Lemma loadSarabunFont_throws readFile g e :
  readFile fontPath = Throw e →
  loadSarabunFont readFile g =
  (g,
   [fs_readFile fontPath;
    console_error ("Error loading Sarabun font file at " +:+ fontPath +:+ ":") e],
   Throw {| message := "Failed to load Sarabun font: " +:+ message e |}).
Proof. intros Hread. unfold loadSarabunFont. run_monad. by rewrite Hread. Qed.

Lemma font_guard_loaded readFile g :
  sarabunFontLoaded g = true →
  font_guard readFile g = (g, [], Return None).
Proof. intros Hl. unfold font_guard. run_monad. by rewrite Hl. Qed.

Lemma font_guard_load_returns readFile g b :
  sarabunFontLoaded g = false →
  readFile fontPath = Return b →
  font_guard readFile g =
  ({| sarabunFontBytes := Some b; sarabunFontLoaded := true |},
   [fs_readFile fontPath; console_log "Sarabun font loaded successfully."],
   Return None).
Proof.
  intros Hl Hread. unfold font_guard.
  unfold mbind at 1, M_bind, read. rewrite Hl. simpl.
  unfold try_catch, mbind, M_bind. by rewrite (loadSarabunFont_returns _ _ b).
Qed.

Lemma font_guard_load_throws readFile g e :
  sarabunFontLoaded g = false →
  readFile fontPath = Throw e →
  font_guard readFile g =
  (g,
   [fs_readFile fontPath;
    console_error ("Error loading Sarabun font file at " +:+ fontPath +:+ ":") e],
   Return (Some {| status := 500;
                   json := VObj {[ "error" :=
                     VStr ("Failed to load Sarabun font: " +:+ message e) ]} |})).
Proof.
  intros Hl Hread. unfold font_guard.
  unfold mbind at 1, M_bind, read. rewrite Hl. simpl.
  unfold try_catch, mbind, M_bind. by rewrite (loadSarabunFont_throws _ _ e).
Qed.


(** ** The body of the handler *)

(** The [try] block with its sequencing spelled out. *)
Lemma try_block_run pdf fn ln wl wo g :
  try_block pdf fn ln wl wo g =
  match Buffer_from_base64 pdf with
  | Throw e => (g, [call_Buffer_from pdf], Throw e)
  | Return existingPdfBytes =>
  match PDFDocument_load existingPdfBytes with
  | Throw e =>
      (g, [call_Buffer_from pdf; call_PDFDocument_load existingPdfBytes], Throw e)
  | Return pdfDoc =>
  match registerFontkit (doc_context pdfDoc) with
  | Throw e =>
      (g, [call_Buffer_from pdf; call_PDFDocument_load existingPdfBytes;
           call_registerFontkit], Throw e)
  | Return context =>
  let setup :=
    [call_Buffer_from pdf; call_PDFDocument_load existingPdfBytes;
     call_registerFontkit; call_embedFont (sarabunFontBytes g)] in
  match embedFont context (sarabunFontBytes g) with
  | Throw e => (g, setup, Throw e)
  | Return (context, customFont) =>
  match finalWatermarkLine2 fn ln with
  | Throw e => (g, setup, Throw e)
  | Return line2 =>
  match forEach (watermarkPage (finalWatermarkOptions wo) (finalWatermarkLine1 wl)
                   line2 customFont customFont)
          (doc_pages pdfDoc) g with
  | (g1, draws, Throw e) => (g1, setup ++ draws, Throw e)
  | (g1, draws, Return pages) =>
      (g1, setup ++ draws ++ [call_save],
       match save context pages with
       | Throw e => Throw e
       | Return modifiedPdfBytes =>
           Return {| status := 200;
                     json := VObj {[ "success" := VBool true;
                                     "watermarkedPdfBase64" :=
                                       VStr (Buffer_toString_base64 modifiedPdfBytes) ]} |}
       end)
  end end end end end end.
Proof.
  unfold try_block. run_monad.
  destruct (Buffer_from_base64 pdf) as [bs|e]; [|done].
  destruct (PDFDocument_load bs) as [doc|e]; [|done].
  destruct (registerFontkit _) as [ctx|e]; [|done].
  simpl. destruct (embedFont _ _) as [[ctx' font]|e]; [|done].
  destruct (finalWatermarkLine2 fn ln) as [line2|e]; [|done].
  destruct (forEach _ _ g) as [[g1 draws] [pages|e]]; [|done].
  by destruct (save ctx' pages).
Qed.

(** Every way the page loop of a request can go. *)
Lemma forEach_watermark_cases opts l1 l2 font pages g :
  ∃ tr r,
    forEach (watermarkPage opts l1 l2 font font) pages g = (g, tr, r) ∧
    ((pages = [] ∧ tr = [] ∧ r = Return []) ∨
     (∃ e, tr = [] ∧ r = Throw e ∧
        (degrees (get "rotate" opts) = Throw e ∨
         widthOfTextAtSize font l1 (get "size" opts) = Throw e ∨
         js_div (get "size" opts) 2 = Throw e)) ∨
     (∃ rot w half,
        degrees (get "rotate" opts) = Return rot ∧
        widthOfTextAtSize font l1 (get "size" opts) = Return w ∧
        js_div (get "size" opts) 2 = Return half ∧
        tr `prefix_of` page_calls opts l1 l2 font rot w half 0 pages ∧
        ∀ pages', r = Return pages' →
          tr = page_calls opts l1 l2 font rot w half 0 pages ∧
          Forall2 (drawn opts l1 l2 font rot w half) pages pages')).
Proof.
  unfold forEach. destruct pages as [|page pages].
  { exists [], (Return []). split; [done|]. by left. }
  destruct (degrees (get "rotate" opts)) as [rot|e] eqn:Hrot.
  2:{ exists [], (Throw e). split; [by apply forEach_watermark_no_rotation|].
      right; left. exists e. auto. }
  destruct (widthOfTextAtSize font l1 (get "size" opts)) as [w|e] eqn:Hw.
  2:{ exists [], (Throw e).
      split; [by eapply forEach_watermark_no_width|].
      right; left. exists e. auto. }
  destruct (js_div (get "size" opts) 2) as [half|e] eqn:Hh.
  2:{ exists [], (Throw e).
      split; [by eapply forEach_watermark_no_half|].
      right; left. exists e. auto. }
  destruct (forEach_watermark_run opts l1 l2 font rot w half (page :: pages)
              Hrot Hw Hh 0 g) as (tr & r & Hrun & Hpre & Hret).
  exists tr, r. split; [done|]. right; right. by exists rot, w, half.
Qed.

Lemma prefix_file_reads tr tr' :
  tr `prefix_of` tr' → file_reads tr' = [] → file_reads tr = [].
Proof.
  intros [rest ->]. rewrite file_reads_app. by intros [? ?]%app_eq_nil.
Qed.

Lemma forEach_watermark_no_reads opts l1 l2 font pages g :
  file_reads (forEach (watermarkPage opts l1 l2 font font) pages g).1.2 = [].
Proof.
  destruct (forEach_watermark_cases opts l1 l2 font pages g)
    as (tr & r & -> &
        [(_ & -> & _)|[(e & -> & _)|(rot & w & half & _ & _ & _ & Hpre & _)]]);
    simpl; try done.
  eapply prefix_file_reads; [done|]. apply file_reads_page_calls.
Qed.

(** The [try] block never touches the globals and never reads a file. *)
Lemma try_block_globals pdf fn ln wl wo g :
  (try_block pdf fn ln wl wo g).1.1 = g ∧
  file_reads (try_block pdf fn ln wl wo g).1.2 = [].
Proof.
  rewrite try_block_run.
  destruct (Buffer_from_base64 pdf) as [bs|e]; [|done].
  destruct (PDFDocument_load bs) as [doc|e]; [|done].
  destruct (registerFontkit _) as [ctx|e]; [|done].
  cbv zeta. destruct (embedFont _ _) as [[ctx' font]|e]; [|done].
  destruct (finalWatermarkLine2 fn ln) as [line2|e]; [|done].
  pose proof (forEach_watermark_no_reads (finalWatermarkOptions wo)
    (finalWatermarkLine1 wl) line2 font (doc_pages doc) g) as Hnr.
  destruct (forEach_watermark_cases (finalWatermarkOptions wo)
    (finalWatermarkLine1 wl) line2 font (doc_pages doc) g)
    as (tr & r & Hrun & _).
  rewrite Hrun in *. simpl in Hnr.
  destruct r; simpl; (split; [done|]);
    rewrite ?file_reads_app, ?Hnr; done.
Qed.

Lemma try_block_returns pdf fn ln wl wo g g' tr res :
  try_block pdf fn ln wl wo g = (g', tr, Return res) →
  g' = g ∧ watermarked pdf fn ln wl wo (sarabunFontBytes g) tr res.
Proof.
  rewrite try_block_run.
  destruct (Buffer_from_base64 pdf) as [bs|e] eqn:Hbs; [|done].
  destruct (PDFDocument_load bs) as [doc|e] eqn:Hdoc; [|done].
  destruct (registerFontkit _) as [ctx|e] eqn:Hreg; [|done].
  cbv zeta. destruct (embedFont _ _) as [[ctx' font]|e] eqn:Hfont; [|done].
  destruct (finalWatermarkLine2 fn ln) as [line2|e] eqn:Hline2; [|done].
  destruct (forEach_watermark_cases (finalWatermarkOptions wo)
    (finalWatermarkLine1 wl) line2 font (doc_pages doc) g)
    as (draws & r & Hrun & Hcases).
  rewrite Hrun. destruct r as [pages|e]; [|done].
  destruct (save ctx' pages) as [out|e] eqn:Hsave; [|done].
  intros ?; simplify_eq. split; [done|].
  exists bs, doc, ctx, ctx', font, line2, draws, pages, out.
  split_and!; try done.
  - destruct Hcases as
      [(-> & _ & ?)|[(e & _ & ? & _)|(rot & w & half & _ & _ & _ & _ & Hret)]];
      simplify_eq; [done|].
    destruct (Hret pages eq_refl) as [_ Hall]. symmetry. by eapply Forall2_length.
  - destruct Hcases as
      [(? & ? & ?)|[(e & _ & ? & _)|(rot & w & half & Hrot & Hw & Hh & _ & Hret)]];
      simplify_eq; [by left|].
    right. exists rot, w, half. destruct (Hret pages eq_refl) as [? ?]. done.
Qed.

(** The handler after the font guard, with its branches spelled out. *)
Lemma process_body_run body g :
  process_body body g =
  if ToBoolean (get "pdfBase64" body) then
    match try_block (get "pdfBase64" body) (get "firstName" body)
            (get "lastName" body) (get "watermarkLine1" body)
            (get "watermarkOptions" body) g with
    | (g1, t1, Return res) => (g1, t1, Return res)
    | (g1, t1, Throw error) =>
        (g1, t1 ++ [console_error "Error generating watermarked PDF:" error],
         Return {| status := 500;
                   json := VObj {[ "error" := VStr "Failed to generate watermarked PDF";
                                   "details" := VStr (message error) ]} |})
    end
  else
    (g, [],
     Return {| status := 400;
               json := VObj {[ "error" := VStr "PDF data (pdfBase64) is required." ]} |}).
Proof.
  unfold process_body. destruct (ToBoolean _); simpl; [|done].
  unfold try_catch. by destruct (try_block _ _ _ _ _ g) as [[g1 t1] [res|e]].
Qed.

(** The whole handler, with the three ways through the font guard. *)
Lemma addWatermark_run readFile body g :
  addWatermark readFile body g =
  if sarabunFontLoaded g then process_body body g
  else
    match readFile fontPath with
    | Return b =>
        match process_body body
                {| sarabunFontBytes := Some b; sarabunFontLoaded := true |} with
        | (g1, t1, r) =>
            (g1,
             [fs_readFile fontPath; console_log "Sarabun font loaded successfully."]
               ++ t1, r)
        end
    | Throw e =>
        (g,
         [fs_readFile fontPath;
          console_error ("Error loading Sarabun font file at " +:+ fontPath +:+ ":") e],
         Return {| status := 500;
                   json := VObj {[ "error" :=
                     VStr ("Failed to load Sarabun font: " +:+ message e) ]} |})
    end.
Proof.
  unfold addWatermark. unfold mbind at 1, M_bind.
  destruct (sarabunFontLoaded g) eqn:Hl.
  - rewrite font_guard_loaded by done.
    by destruct (process_body body g) as [[g1 t1] r].
  - destruct (readFile fontPath) as [b|e] eqn:Hread.
    + by rewrite (font_guard_load_returns _ _ b).
    + by rewrite (font_guard_load_throws _ _ e).
Qed.

(** After the font guard nothing changes the globals or reads a file, and
    the handler always ends in a response. *)
Lemma process_body_globals body g :
  (process_body body g).1.1 = g ∧
  file_reads (process_body body g).1.2 = [] ∧
  ∃ res, (process_body body g).2 = Return res.
Proof.
  rewrite process_body_run. destruct (ToBoolean _); [|by eauto].
  destruct (try_block_globals (get "pdfBase64" body) (get "firstName" body)
    (get "lastName" body) (get "watermarkLine1" body)
    (get "watermarkOptions" body) g) as [Hg Hr].
  destruct (try_block _ _ _ _ _ g) as [[g1 t1] [res|e]]; simpl in *.
  - eauto.
  - rewrite file_reads_app, Hr. eauto.
Qed.

(** The draw calls of [page_calls], by position. *)
Lemma draw_calls_page_calls_lookup opts l1 l2 font rot w half pages :
  ∀ k i page, pages !! i = Some page →
  draw_calls (page_calls opts l1 l2 font rot w half k pages) !! (2 * i) =
    Some (k + i, l1, options1 opts font rot w half page) ∧
  draw_calls (page_calls opts l1 l2 font rot w half k pages) !! (2 * i + 1) =
    Some (k + i, l2, options2 opts font rot w half page).
Proof.
  induction pages as [|p pages IH]; intros k i page Hi; [done|].
  destruct i as [|i]; simpl in Hi.
  - simplify_eq. by rewrite Nat.add_0_r.
  - destruct (IH (S k) i page Hi) as [H1 H2].
    replace (2 * S i) with (S (S (2 * i))) by lia.
    replace (k + S i) with (S k + i) by lia.
    simpl. split; [exact H1|].
    replace (i + (i + 0) + 1) with (2 * i + 1) by lia. exact H2.
Qed.

Lemma draw_calls_page_calls_lookup_inv opts l1 l2 font rot w half pages :
  ∀ k j c, draw_calls (page_calls opts l1 l2 font rot w half k pages) !! j = Some c →
  ∃ i page, pages !! i = Some page ∧
    ((j = 2 * i ∧ c = (k + i, l1, options1 opts font rot w half page)) ∨
     (j = 2 * i + 1 ∧ c = (k + i, l2, options2 opts font rot w half page))).
Proof.
  induction pages as [|p pages IH]; intros k j c Hj; [done|].
  destruct j as [|[|j]]; simpl in Hj.
  - simplify_eq. exists 0, p. split; [done|]. left. by rewrite Nat.add_0_r.
  - simplify_eq. exists 0, p. split; [done|]. right. by rewrite Nat.add_0_r.
  - destruct (IH (S k) j c Hj) as (i & page & Hi & Hcase).
    exists (S i), page. split; [done|].
    replace (k + S i) with (S k + i) by lia.
    destruct Hcase as [[-> ->]|[-> ->]]; [left|right]; split; (lia || done).
Qed.

Lemma prefix_draw_calls tr tr' :
  tr `prefix_of` tr' → draw_calls tr `prefix_of` draw_calls tr'.
Proof. intros [rest ->]. rewrite draw_calls_app. by eexists. Qed.

(** The pages and texts of the draw calls of a whole page loop. *)
Lemma draw_calls_page_calls_targets opts l1 l2 font rot w half pages :
  ∀ k,
  (λ c : nat * value * DrawTextOptions PDFFont Rotation, (c.1.1, c.1.2))
    <$> draw_calls (page_calls opts l1 l2 font rot w half k pages) =
  flat_map (λ i, [(i, l1); (i, l2)]) (seq k (length pages)).
Proof.
  induction pages as [|p pages IH]; intros k; simpl; [done|].
  by rewrite IH.
Qed.

(** A request that is answered with status 200 went through the font guard
    and a [try] block that returned. *)
Lemma addWatermark_200 readFile body g g' tr res :
  addWatermark readFile body g = (g', tr, Return res) →
  status res = 200 →
  ∃ pre tr2,
    tr = pre ++ tr2 ∧ draw_calls pre = [] ∧
    watermarked (get "pdfBase64" body) (get "firstName" body) (get "lastName" body)
      (get "watermarkLine1" body) (get "watermarkOptions" body)
      (sarabunFontBytes g') tr2 res.
Proof.
  assert (∀ g0 g1 t1,
    process_body body g0 = (g1, t1, Return res) → status res = 200 →
    watermarked (get "pdfBase64" body) (get "firstName" body) (get "lastName" body)
      (get "watermarkLine1" body) (get "watermarkOptions" body)
      (sarabunFontBytes g1) t1 res) as Hbody.
  { intros g0 g1 t1. rewrite process_body_run.
    destruct (ToBoolean _); [|by intros ? ?; simplify_eq].
    destruct (try_block _ _ _ _ _ g0) as [[g2 t2] [r|e]] eqn:Htry;
      intros ? ?; simplify_eq.
    by apply try_block_returns in Htry as [-> ?]. }
  rewrite addWatermark_run. intros Hrun Hst.
  destruct (sarabunFontLoaded g).
  - exists [], tr. split; [done|]. split; [done|]. by eapply Hbody.
  - destruct (readFile fontPath) as [b|e]; [|by simplify_eq].
    destruct (process_body body _) as [[g1 t1] r] eqn:Hpb. simplify_eq.
    eexists [_; _], t1. split; [done|]. split; [done|]. by eapply Hbody.
Qed.

Lemma draw_calls_watermarked_trace pdf existingPdfBytes fontBytes draws :
  draw_calls ([call_Buffer_from pdf; call_PDFDocument_load existingPdfBytes;
               call_registerFontkit; call_embedFont fontBytes] ++ draws ++ [call_save])
  = draw_calls draws.
Proof. simpl. rewrite draw_calls_app. simpl. apply app_nil_r. Qed.

(** In a request answered with status 200, every page of the loaded
    document got its two draw calls, at positions [2i] and [2i+1]. *)
Lemma success_page_draws readFile body g g' tr res
    existingPdfBytes pdfDoc context0 context customFont :
  addWatermark readFile body g = (g', tr, Return res) →
  status res = 200 →
  Buffer_from_base64 (get "pdfBase64" body) = Return existingPdfBytes →
  PDFDocument_load existingPdfBytes = Return pdfDoc →
  registerFontkit (doc_context pdfDoc) = Return context0 →
  embedFont context0 (sarabunFontBytes g') = Return (context, customFont) →
  let opts := finalWatermarkOptions (get "watermarkOptions" body) in
  let line1 := finalWatermarkLine1 (get "watermarkLine1" body) in
  ∃ line2,
    finalWatermarkLine2 (get "firstName" body) (get "lastName" body) = Return line2 ∧
    ∀ i page, doc_pages pdfDoc !! i = Some page →
      ∃ rot w half,
        degrees (get "rotate" opts) = Return rot ∧
        widthOfTextAtSize customFont line1 (get "size" opts) = Return w ∧
        js_div (get "size" opts) 2 = Return half ∧
        draw_calls tr !! (2 * i) =
          Some (i, line1, options1 opts customFont rot w half page) ∧
        draw_calls tr !! (2 * i + 1) =
          Some (i, line2, options2 opts customFont rot w half page).
Proof.
  intros Hrun Hst Hbs Hdoc Hreg Hfont opts line1.
  destruct (addWatermark_200 _ _ _ _ _ _ Hrun Hst)
    as (pre & tr2 & -> & Hpre & bs' & doc' & c0 & c & f & line2 & draws & pages & out
        & Hbs' & Hdoc' & Hreg' & Hfont' & _ & -> & _ & _ & Hline2 & Hdraws).
  rewrite Hbs in Hbs'. simplify_eq. rewrite Hdoc in Hdoc'. simplify_eq.
  rewrite Hreg in Hreg'. simplify_eq. rewrite Hfont in Hfont'. simplify_eq.
  exists line2. split; [done|]. intros i page Hi.
  rewrite draw_calls_app, Hpre, draw_calls_watermarked_trace. simpl.
  destruct Hdraws as [[Hnil _]|(rot & w & half & Hrot & Hw & Hh & -> & _)].
  { by rewrite Hnil in Hi. }
  exists rot, w, half. split; [done|]. split; [done|]. split; [done|].
  apply (draw_calls_page_calls_lookup _ _ _ _ _ _ _ _ 0 i page Hi).
Qed.

(** However a request ends, its draw calls are an initial part of the
    draw calls of a full page loop over some document. *)
Lemma addWatermark_draws readFile body g :
  let opts := finalWatermarkOptions (get "watermarkOptions" body) in
  let line1 := finalWatermarkLine1 (get "watermarkLine1" body) in
  draw_calls (addWatermark readFile body g).1.2 = [] ∨
  ∃ line2 font rot w half pages,
    finalWatermarkLine2 (get "firstName" body) (get "lastName" body) = Return line2 ∧
    degrees (get "rotate" opts) = Return rot ∧
    widthOfTextAtSize font line1 (get "size" opts) = Return w ∧
    js_div (get "size" opts) 2 = Return half ∧
    draw_calls (addWatermark readFile body g).1.2 `prefix_of`
      draw_calls (page_calls opts line1 line2 font rot w half 0 pages).
Proof.
  intros opts line1.
  assert (∀ g0,
    draw_calls (try_block (get "pdfBase64" body) (get "firstName" body)
      (get "lastName" body) (get "watermarkLine1" body)
      (get "watermarkOptions" body) g0).1.2 = [] ∨
    ∃ line2 font rot w half pages,
      finalWatermarkLine2 (get "firstName" body) (get "lastName" body)
        = Return line2 ∧
      degrees (get "rotate" opts) = Return rot ∧
      widthOfTextAtSize font line1 (get "size" opts) = Return w ∧
      js_div (get "size" opts) 2 = Return half ∧
      draw_calls (try_block (get "pdfBase64" body) (get "firstName" body)
        (get "lastName" body) (get "watermarkLine1" body)
        (get "watermarkOptions" body) g0).1.2 `prefix_of`
        draw_calls (page_calls opts line1 line2 font rot w half 0 pages)) as Htry.
  { intros g0. rewrite try_block_run.
    destruct (Buffer_from_base64 _) as [bs|e]; [|by left].
    destruct (PDFDocument_load bs) as [doc|e]; [|by left].
    destruct (registerFontkit _) as [ctx|e]; [|by left].
    cbv zeta. destruct (embedFont _ _) as [[ctx' font]|e]; [|by left].
    destruct (finalWatermarkLine2 _ _) as [line2|e] eqn:Hline2; [|by left].
    destruct (forEach_watermark_cases opts line1 line2 font (doc_pages doc) g0)
      as (draws & r & Hrun & Hcases).
    fold opts line1. rewrite Hrun.
    assert (draw_calls draws = [] ∨ ∃ rot w half,
      degrees (get "rotate" opts) = Return rot ∧
      widthOfTextAtSize font line1 (get "size" opts) = Return w ∧
      js_div (get "size" opts) 2 = Return half ∧
      draw_calls draws `prefix_of`
        draw_calls (page_calls opts line1 line2 font rot w half 0 (doc_pages doc)))
      as [Hnil|(rot & w & half & Hrot & Hw & Hh & Hpre)].
    { destruct Hcases as
        [(_ & -> & _)|[(e & -> & _)|(rot & w & half & Hrot & Hw & Hh & Hpre & _)]];
        [by left|by left|].
      right. exists rot, w, half. split_and!; try done.
      by apply prefix_draw_calls. }
    - left. destruct r; simpl; rewrite ?draw_calls_app, Hnil; done.
    - right. exists line2, font, rot, w, half, (doc_pages doc).
      split_and!; try done.
      destruct r; simpl; rewrite ?draw_calls_app; simpl;
        rewrite ?app_nil_r; done. }
  assert (∀ g0,
    draw_calls (process_body body g0).1.2 = [] ∨
    ∃ line2 font rot w half pages,
      finalWatermarkLine2 (get "firstName" body) (get "lastName" body)
        = Return line2 ∧
      degrees (get "rotate" opts) = Return rot ∧
      widthOfTextAtSize font line1 (get "size" opts) = Return w ∧
      js_div (get "size" opts) 2 = Return half ∧
      draw_calls (process_body body g0).1.2 `prefix_of`
        draw_calls (page_calls opts line1 line2 font rot w half 0 pages)) as Hbody.
  { intros g0. rewrite process_body_run.
    destruct (ToBoolean _); [|by left].
    specialize (Htry g0).
    destruct (try_block _ _ _ _ _ g0) as [[g1 t1] [res|e]]; simpl in *; [done|].
    rewrite draw_calls_app. simpl. by rewrite app_nil_r. }
  rewrite addWatermark_run.
  destruct (sarabunFontLoaded g); [apply Hbody|].
  destruct (readFile fontPath) as [b|e]; [|by left].
  specialize (Hbody {| sarabunFontBytes := Some b; sarabunFontLoaded := true |}).
  by destruct (process_body body _) as [[g1 t1] r].
Qed.

(** What was embedded in a request answered with status 200. *)
Lemma success_font readFile body g g' tr res existingPdfBytes pdfDoc :
  addWatermark readFile body g = (g', tr, Return res) →
  status res = 200 →
  Buffer_from_base64 (get "pdfBase64" body) = Return existingPdfBytes →
  PDFDocument_load existingPdfBytes = Return pdfDoc →
  ∃ context0 context customFont,
    registerFontkit (doc_context pdfDoc) = Return context0 ∧
    embedFont context0 (sarabunFontBytes g') = Return (context, customFont).
Proof.
  intros Hrun Hst Hbs Hdoc.
  destruct (addWatermark_200 _ _ _ _ _ _ Hrun Hst)
    as (pre & tr2 & -> & Hpre & bs' & doc' & c0 & c & f & line2 & draws & pages
        & out & Hbs' & Hdoc' & Hreg' & Hfont' & _).
  rewrite Hbs in Hbs'. simplify_eq. rewrite Hdoc in Hdoc'. simplify_eq.
  by exists c0, c, f.
Qed.

(** A property that reads as [""] is to the handler as one that is not
    there, for the three string properties. *)
Lemma get_delete_ne (k k' : string) (body : object) :
  k ≠ k' → get k' (delete k body) = get k' body.
Proof. intros Hne. unfold get. by rewrite lookup_delete_ne. Qed.

Lemma get_delete_eq (k : string) (body : object) :
  get k (delete k body) = VUndefined.
Proof. unfold get. by rewrite lookup_delete_eq. Qed.

Lemma get_Some (k : string) (body : object) v :
  body !! k = Some v → get k body = v.
Proof. intros Hk. unfold get. by rewrite Hk. Qed.

Lemma get_None (k : string) (body : object) :
  body !! k = None → get k body = VUndefined.
Proof. intros Hk. unfold get. by rewrite Hk. Qed.

Lemma addWatermark_ext readFile body body' :
  process_body body = process_body body' →
  addWatermark readFile body = addWatermark readFile body'.
Proof. intros Heq. unfold addWatermark. by rewrite Heq. Qed.

(** Once the font is loaded, no request reads the file or touches the
    cache again. *)
Lemma addWatermark_loaded readFile body g :
  sarabunFontLoaded g = true →
  (addWatermark readFile body g).1.1 = g ∧
  file_reads (addWatermark readFile body g).1.2 = [].
Proof.
  intros Hl. rewrite addWatermark_run, Hl.
  destruct (process_body_globals body g) as (Hg & Hr & _). done.
Qed.

Lemma serve_loaded requests g :
  sarabunFontLoaded g = true →
  (serve requests g).1 = g ∧
  Forall (λ out, file_reads out.1 = []) (serve requests g).2.
Proof.
  intros Hl. induction requests as [|[readFile body] requests [IHg IHr]]; [done|].
  simpl. destruct (addWatermark_loaded readFile body g Hl) as [Hg Hr].
  destruct (addWatermark readFile body g) as [[g1 tr] r]. simpl in *. subst g1.
  destruct (serve requests g) as [g2 out]. simpl in *. split; [done|].
  by constructor.
Qed.

(** A request that finds the font not loaded reads the file exactly once. *)
Lemma addWatermark_cold_reads readFile body g :
  sarabunFontLoaded g = false →
  file_reads (addWatermark readFile body g).1.2 = [fontPath].
Proof.
  intros Hl. rewrite addWatermark_run, Hl.
  destruct (readFile fontPath) as [b|e]; [|done].
  destruct (process_body_globals body
              {| sarabunFontBytes := Some b; sarabunFontLoaded := true |})
    as (_ & Hr & _).
  destruct (process_body body _) as [[g1 t1] r]. simpl in *. by rewrite Hr.
Qed.


(** ** Option merging and the two watermark strings *)

Lemma spread_lookup (a : object) (b : value) (k : string) :
  spread a b !! k =
  match own_properties b !! k with
  | Some v => Some v
  | None => a !! k
  end.
Proof.
  unfold spread. rewrite lookup_union.
  destruct (own_properties b !! k), (a !! k); done.
Qed.


Lemma pretty_N_go_digit_first x s :
  digit_first s = true → digit_first (pretty_N_go x s) = true.
Proof.
  revert s. induction (N.lt_wf_0 x) as [x _ IH]; intros s Hs.
  assert (x = 0 ∨ 0 < x)%N as [->|Hx] by lia.
  - by rewrite pretty_N_go_0.
  - rewrite pretty_N_go_step by done. apply IH.
    { by apply N.div_lt. }
    unfold pretty_N_char. by repeat case_match.
Qed.

Lemma pretty_nat_digit_first (i : nat) : digit_first (pretty i) = true.
Proof.
  unfold pretty, pretty_nat, pretty, pretty_N.
  case_decide; [done|]. by apply pretty_N_go_digit_first.
Qed.

Lemma index_entries_lookup {A} (f : A → value) (l : list A) (k : string) :
  digit_first k = false →
  (list_to_map (index_entries f l) : object) !! k = None.
Proof.
  intros Hk. apply not_elem_of_list_to_map_1. intros Hin.
  apply list_elem_of_fmap in Hin as ([k' v] & -> & Hin).
  unfold index_entries in Hin. apply elem_of_lookup_imap in Hin as (i & x & Heq & _).
  simplify_eq. simpl in Hk. by rewrite pretty_nat_digit_first in Hk.
Qed.

(** Spreading something that is not an object adds no option. *)
Lemma own_properties_not_object (wo : value) (k : string) :
  (∀ o, wo ≠ VObj o) → digit_first k = false → own_properties wo !! k = None.
Proof.
  intros Hno Hk. destruct wo; simpl; try done.
  - by apply index_entries_lookup.
  - by apply index_entries_lookup.
  - by destruct (Hno o).
Qed.

(** C3. Merging is field by field over the defaults
    [{ size: 65, opacity: 0.2, rotate: -45, sizesubtitle: 40 }]: for every
    caller object, each of the four fields of the merged options is the
    caller's value of that same field when the caller supplied one and the
    documented default otherwise; every other property is the caller's.
    Supplying only [opacity] leaves 65, -45 and 40 in place; supplying
    nothing gives the defaults, and so does, for the four fields, a
    [watermarkOptions] that is no object at all ([null], a number, a
    string, an array). *)
Theorem merge_field_independent (o : object) :
  let merged := finalWatermarkOptions (VObj o) in
  merged !! "size" = Some (default (VNum 65) (o !! "size")) ∧
  merged !! "opacity" = Some (default (VNum 0.2) (o !! "opacity")) ∧
  merged !! "rotate" = Some (default (VNum (-45)) (o !! "rotate")) ∧
  merged !! "sizesubtitle" = Some (default (VNum 40) (o !! "sizesubtitle")) ∧
  (∀ k, k ∉ ["size"; "opacity"; "rotate"; "sizesubtitle"] → merged !! k = o !! k) ∧
  (∀ v, let only := finalWatermarkOptions (VObj {[ "opacity" := v ]}) in
        only !! "opacity" = Some v ∧
        only !! "size" = Some (VNum 65) ∧
        only !! "rotate" = Some (VNum (-45)) ∧
        only !! "sizesubtitle" = Some (VNum 40)) ∧
  finalWatermarkOptions (VObj ∅) = defaultWatermarkOptions ∧
  finalWatermarkOptions VUndefined = defaultWatermarkOptions ∧
  (∀ wo, (∀ o', wo ≠ VObj o') →
     finalWatermarkOptions wo !! "size" = Some (VNum 65) ∧
     finalWatermarkOptions wo !! "opacity" = Some (VNum 0.2) ∧
     finalWatermarkOptions wo !! "rotate" = Some (VNum (-45)) ∧
     finalWatermarkOptions wo !! "sizesubtitle" = Some (VNum 40)).
Proof.
  cbv zeta. unfold finalWatermarkOptions. split_and!.
  - rewrite spread_lookup; simpl. by destruct (o !! "size").
  - rewrite spread_lookup; simpl. by destruct (o !! "opacity").
  - rewrite spread_lookup; simpl. by destruct (o !! "rotate").
  - rewrite spread_lookup; simpl. by destruct (o !! "sizesubtitle").
  - intros k Hk. rewrite spread_lookup; simpl.
    destruct (o !! k) eqn:Hok; [done|].
    unfold defaultWatermarkOptions.
    repeat (rewrite lookup_insert_ne; [|intros <-; apply Hk; set_solver]).
    apply lookup_singleton_ne. intros <-. apply Hk. set_solver.
  - intros v. rewrite !spread_lookup; simpl.
    rewrite lookup_singleton_eq, !lookup_singleton_ne by done. done.
  - unfold spread. simpl. apply (left_id_L ∅ (∪)).
  - unfold spread. simpl. apply (left_id_L ∅ (∪)).
  - intros wo Hno.
    rewrite !spread_lookup, !(own_properties_not_object wo) by done. done.
Qed.

(** The handler always ends in a response. *)
Lemma addWatermark_responds readFile body g :
  ∃ res, (addWatermark readFile body g).2 = Return res.
Proof.
  rewrite addWatermark_run. destruct (sarabunFontLoaded g).
  - by destruct (process_body_globals body g) as (_ & _ & ?).
  - destruct (readFile fontPath) as [b|e]; [|by eexists].
    destruct (process_body_globals body
                {| sarabunFontBytes := Some b; sarabunFontLoaded := true |})
      as (_ & _ & res & Hres).
    destruct (process_body body _) as [[g1 t1] r]. by exists res.
Qed.

(** When the template literal of line 2 throws, nothing is drawn and no
    document is sent. *)
Lemma addWatermark_no_line2 readFile body g e :
  finalWatermarkLine2 (get "firstName" body) (get "lastName" body) = Throw e →
  draw_calls (addWatermark readFile body g).1.2 = [] ∧
  ∃ res, (addWatermark readFile body g).2 = Return res ∧ status res ≠ 200.
Proof.
  intros Hline2. split.
  - destruct (addWatermark_draws readFile body g)
      as [Hnil|(line2 & ? & ? & ? & ? & ? & Hret & _)]; [done|].
    rewrite Hline2 in Hret. done.
  - destruct (addWatermark_responds readFile body g) as [res Hres].
    exists res. split; [done|]. intros Hst.
    destruct (addWatermark readFile body g) as [[g' tr] r] eqn:Hrun.
    simpl in Hres. subst r.
    destruct (addWatermark_200 _ _ _ _ _ _ Hrun Hst)
      as (? & ? & _ & _ & ? & ? & ? & ? & ? & line2 & ? & ? & ? & _ & _ & _ & _
          & _ & _ & _ & _ & Hret & _).
    rewrite Hline2 in Hret. done.
Qed.

(** C4 (amended). Line 1 is [watermarkLine1] when that is truthy -- for a
    string: supplied and not empty -- and the literal ["CONFIDENTIAL"]
    otherwise, in particular when it is omitted.  Line 2 is [firstName]
    and [lastName], each replaced by the empty string when falsy and
    converted to a string, with exactly one space between them: for strings
    or omitted properties it is the first name, a space, the last name;
    Jane Doe with no [watermarkLine1] gives ["CONFIDENTIAL"] and
    ["Jane Doe"]; with both names omitted line 2 is a single space.  A
    truthy name that has no string -- an object with a property [toString]
    of its own -- makes the template literal throw a [TypeError]: then
    there is no line 2, nothing is drawn and the answer is not the
    document.  In a request answered with the watermarked document line 2
    was built, and both resolved lines are drawn on every page, the single
    space included. *)
Theorem watermark_lines_resolved (body : object) :
  let watermarkLine1 := get "watermarkLine1" body in
  let firstName := get "firstName" body in
  let lastName := get "lastName" body in
  let line1 := finalWatermarkLine1 watermarkLine1 in
  let line2 := finalWatermarkLine2 firstName lastName in
  line1 = (if ToBoolean watermarkLine1 then watermarkLine1 else VStr "CONFIDENTIAL") ∧
  (∀ s, body !! "watermarkLine1" = Some (VStr s) → s ≠ "" → line1 = VStr s) ∧
  (body !! "watermarkLine1" = None → line1 = VStr "CONFIDENTIAL") ∧
  (∀ a b,
     ToString (if ToBoolean firstName then firstName else VStr "") = Return a →
     ToString (if ToBoolean lastName then lastName else VStr "") = Return b →
     line2 = Return (VStr (a +:+ " " +:+ b))) ∧
  (∀ e,
     ToString (if ToBoolean firstName then firstName else VStr "") = Throw e →
     line2 = Throw e) ∧
  (∀ a e,
     ToString (if ToBoolean firstName then firstName else VStr "") = Return a →
     ToString (if ToBoolean lastName then lastName else VStr "") = Throw e →
     line2 = Throw e) ∧
  (∀ o, firstName = VObj o → is_Some (o !! "toString") →
        line2 = Throw TypeError_to_primitive) ∧
  (∀ a b,
     body !! "firstName" = Some (VStr a) ∨ body !! "firstName" = None ∧ a = "" →
     body !! "lastName" = Some (VStr b) ∨ body !! "lastName" = None ∧ b = "" →
     line2 = Return (VStr (a +:+ " " +:+ b))) ∧
  (body !! "firstName" = Some (VStr "Jane") →
   body !! "lastName" = Some (VStr "Doe") →
   body !! "watermarkLine1" = None →
   line1 = VStr "CONFIDENTIAL" ∧ line2 = Return (VStr "Jane Doe")) ∧
  (body !! "firstName" = None → body !! "lastName" = None →
   line2 = Return (VStr " ")) ∧
  (∀ e readFile g,
     line2 = Throw e →
     draw_calls (addWatermark readFile body g).1.2 = [] ∧
     ∃ res, (addWatermark readFile body g).2 = Return res ∧ status res ≠ 200) ∧
  (∀ readFile g g' tr res existingPdfBytes pdfDoc,
     addWatermark readFile body g = (g', tr, Return res) →
     status res = 200 →
     Buffer_from_base64 (get "pdfBase64" body) = Return existingPdfBytes →
     PDFDocument_load existingPdfBytes = Return pdfDoc →
     ∃ text2,
       line2 = Return text2 ∧
       ∀ i page, doc_pages pdfDoc !! i = Some page →
         ∃ o1 o2,
           draw_calls tr !! (2 * i) = Some (i, line1, o1) ∧
           draw_calls tr !! (2 * i + 1) = Some (i, text2, o2)).
Proof.
  cbv zeta.
  assert (∀ a b,
     body !! "firstName" = Some (VStr a) ∨ body !! "firstName" = None ∧ a = "" →
     body !! "lastName" = Some (VStr b) ∨ body !! "lastName" = None ∧ b = "" →
     finalWatermarkLine2 (get "firstName" body) (get "lastName" body)
     = Return (VStr (a +:+ " " +:+ b))) as Hnames.
  { intros a b Ha Hb. apply finalWatermarkLine2_strings.
    - destruct Ha as [Ha|[Ha ->]]; [left|right].
      + by rewrite (get_Some _ _ _ Ha).
      + by rewrite (get_None _ _ Ha).
    - destruct Hb as [Hb|[Hb ->]]; [left|right].
      + by rewrite (get_Some _ _ _ Hb).
      + by rewrite (get_None _ _ Hb). }
  split_and!.
  - done.
  - intros s Hs Hne. rewrite (get_Some _ _ _ Hs).
    unfold finalWatermarkLine1, js_or. simpl. by destruct s.
  - intros Hno. by rewrite (get_None _ _ Hno).
  - intros a b Ha Hb. unfold finalWatermarkLine2, js_or. by rewrite Ha, Hb.
  - intros e He. unfold finalWatermarkLine2, js_or. by rewrite He.
  - intros a e Ha He. unfold finalWatermarkLine2, js_or. by rewrite Ha, He.
  - intros o -> Ho. unfold finalWatermarkLine2, js_or.
    cbn [ToBoolean]. by rewrite (ToString_own_toString o Ho).
  - exact Hnames.
  - intros Hf Hl Hno. split.
    + by rewrite (get_None _ _ Hno).
    + apply (Hnames "Jane" "Doe"); by left.
  - intros Hf Hl. apply (Hnames "" ""); by right.
  - intros e readFile g He. by apply (addWatermark_no_line2 _ _ _ e).
  - intros readFile g g' tr res bs doc Hrun Hst Hbs Hdoc.
    destruct (success_font _ _ _ _ _ _ _ _ Hrun Hst Hbs Hdoc)
      as (c0 & c & f & Hreg & Hfont).
    destruct (success_page_draws _ _ _ _ _ _ _ _ _ _ _ Hrun Hst Hbs Hdoc Hreg Hfont)
      as (line2 & Hline2 & Hpages).
    exists line2. split; [done|]. intros i page Hi.
    destruct (Hpages i page Hi) as (rot & w & half & _ & _ & _ & H1 & H2).
    by eexists _, _.
Qed.

(** C9. An empty string counts as absent in the string defaults: with
    [watermarkLine1] equal to [""] line 1 is ["CONFIDENTIAL"], and an empty
    [firstName] or [lastName] puts the empty string into line 2; in each
    case the whole handler does exactly what it does when the property is
    left out. *)
Theorem empty_string_as_absent readFile (body : object) :
  (body !! "watermarkLine1" = Some (VStr "") →
     finalWatermarkLine1 (get "watermarkLine1" body) = VStr "CONFIDENTIAL" ∧
     addWatermark readFile body = addWatermark readFile (delete "watermarkLine1" body)) ∧
  (body !! "firstName" = Some (VStr "") →
     finalWatermarkLine2 (get "firstName" body) (get "lastName" body) =
       (λ last, VStr ("" +:+ " " +:+ last))
         <$> ToString (js_or (get "lastName" body) (VStr "")) ∧
     addWatermark readFile body = addWatermark readFile (delete "firstName" body)) ∧
  (body !! "lastName" = Some (VStr "") →
     finalWatermarkLine2 (get "firstName" body) (get "lastName" body) =
       (λ first, VStr (first +:+ " " +:+ ""))
         <$> ToString (js_or (get "firstName" body) (VStr "")) ∧
     addWatermark readFile body = addWatermark readFile (delete "lastName" body)).
Proof.
  split_and!; intros Hk; (split; [rewrite (get_Some _ _ _ Hk)|]).
  - done.
  - apply addWatermark_ext; unfold process_body;
      rewrite get_delete_eq, !get_delete_ne, (get_Some _ _ _ Hk) by done;
      reflexivity.
  - unfold finalWatermarkLine2. cbn [js_or ToBoolean ToString].
    by destruct (ToString _).
  - apply addWatermark_ext; unfold process_body;
      rewrite get_delete_eq, !get_delete_ne, (get_Some _ _ _ Hk) by done;
      reflexivity.
  - unfold finalWatermarkLine2. cbn [js_or ToBoolean ToString].
    by destruct (ToString _).
  - apply addWatermark_ext; unfold process_body;
      rewrite get_delete_eq, !get_delete_ne, (get_Some _ _ _ Hk) by done;
      reflexivity.
Qed.

(** ** Placement of the two lines *)

(** C1. In every request answered with the watermarked document, every
    page of the loaded document gets its line-1 draw call: the text is the
    resolved line 1; the origin is the page centre [(width/2, height/2)]
    moved left by half the width the font measures for line 1 at
    [options.size] and down by half of [options.size] (the line height is
    taken to be the font size): [options.size / 2] divides the number that
    [options.size] is, or converts to, by two, so for a size of [n] the
    vertical origin is [height/2 - n/2]; the call carries size
    [options.size], opacity [options.opacity], the rotation
    [degrees(options.rotate)], the embedded font and the colour
    [rgb(0.5, 0.5, 0.5)]. *)
Theorem line1_centred_on_every_page readFile body g g' tr res
    existingPdfBytes pdfDoc context0 context customFont :
  addWatermark readFile body g = (g', tr, Return res) →
  status res = 200 →
  Buffer_from_base64 (get "pdfBase64" body) = Return existingPdfBytes →
  PDFDocument_load existingPdfBytes = Return pdfDoc →
  registerFontkit (doc_context pdfDoc) = Return context0 →
  embedFont context0 (sarabunFontBytes g') = Return (context, customFont) →
  let options := finalWatermarkOptions (get "watermarkOptions" body) in
  let line1 := finalWatermarkLine1 (get "watermarkLine1" body) in
  ∀ i page, doc_pages pdfDoc !! i = Some page →
    ∃ line1Width rotationObject line1Height o,
      widthOfTextAtSize customFont line1 (get "size" options) = Return line1Width ∧
      degrees (get "rotate" options) = Return rotationObject ∧
      ToNumber (get "size" options) = Return line1Height ∧
      draw_calls tr !! (2 * i) = Some (i, line1, o) ∧
      draw_x o = ((getSize page).1 / 2 - line1Width / 2)%float ∧
      draw_y o = ((getSize page).2 / 2 - line1Height / 2)%float ∧
      (∀ n, get "size" options = VNum n →
            draw_y o = ((getSize page).2 / 2 - n / 2)%float) ∧
      draw_size o = get "size" options ∧
      draw_opacity o = get "opacity" options ∧
      draw_rotate o = rotationObject ∧
      draw_font o = customFont ∧
      draw_color o = rgb 0.5 0.5 0.5.
Proof.
  intros Hrun Hst Hbs Hdoc Hreg Hfont options line1 i page Hi.
  destruct (success_page_draws _ _ _ _ _ _ _ _ _ _ _ Hrun Hst Hbs Hdoc Hreg Hfont)
    as (line2 & _ & Hpages).
  destruct (Hpages i page Hi) as (rot & w & half & Hrot & Hw & Hh & H1 & _).
  fold options in Hh. unfold js_div in Hh.
  destruct (ToNumber (get "size" options)) as [n|e] eqn:Hn; [|done].
  simpl in Hh. injection Hh as <-.
  exists w, rot, n, (options1 options customFont rot w (n / 2) page).
  split_and!; try done.
  intros n' Hn'. rewrite Hn' in Hn. simpl in Hn. by injection Hn as ->.
Qed.

(** C2. In every request answered with the watermarked document, on every
    page the line-2 draw call follows the line-1 call, and its origin is
    the line-1 origin plus [(-20, -30)], whatever the two strings are (no
    width is measured for line 2); it carries size [options.sizesubtitle]
    and the opacity, rotation, font and colour of the line-1 call. *)
Theorem line2_offset_from_line1 readFile body g g' tr res
    existingPdfBytes pdfDoc context0 context customFont :
  addWatermark readFile body g = (g', tr, Return res) →
  status res = 200 →
  Buffer_from_base64 (get "pdfBase64" body) = Return existingPdfBytes →
  PDFDocument_load existingPdfBytes = Return pdfDoc →
  registerFontkit (doc_context pdfDoc) = Return context0 →
  embedFont context0 (sarabunFontBytes g') = Return (context, customFont) →
  let options := finalWatermarkOptions (get "watermarkOptions" body) in
  let line1 := finalWatermarkLine1 (get "watermarkLine1" body) in
  ∃ line2,
    finalWatermarkLine2 (get "firstName" body) (get "lastName" body) = Return line2 ∧
    ∀ i page, doc_pages pdfDoc !! i = Some page →
      ∃ o1 o2,
        draw_calls tr !! (2 * i) = Some (i, line1, o1) ∧
        draw_calls tr !! (2 * i + 1) = Some (i, line2, o2) ∧
        draw_x o2 = (draw_x o1 + -20)%float ∧
        draw_y o2 = (draw_y o1 + -30)%float ∧
        draw_size o2 = get "sizesubtitle" options ∧
        draw_opacity o2 = draw_opacity o1 ∧
        draw_rotate o2 = draw_rotate o1 ∧
        draw_font o2 = draw_font o1 ∧
        draw_color o2 = draw_color o1.
Proof.
  intros Hrun Hst Hbs Hdoc Hreg Hfont options line1.
  destruct (success_page_draws _ _ _ _ _ _ _ _ _ _ _ Hrun Hst Hbs Hdoc Hreg Hfont)
    as (line2 & Hline2 & Hpages).
  exists line2. split; [done|]. intros i page Hi.
  destruct (Hpages i page Hi) as (rot & w & half & Hrot & Hw & Hh & H1 & H2).
  exists (options1 options customFont rot w half page),
         (options2 options customFont rot w half page).
  by split_and!.
Qed.

(** ** The page loop *)

(** C6. In every request answered with the watermarked document, the
    document that is serialised into the response has as many pages as the
    document that was loaded; the draw calls of the request are, page by
    page in page order, one line-1 call and one line-2 call and nothing
    else; and page [i] of the serialised document is page [i] of the input
    after exactly these two calls.  For an input with one page or more the
    document read back from the response -- decoded and parsed as the
    handler decodes and parses -- has the page count of the input, given
    that base64 round-trips and that pdf-lib's [save] keeps the page count
    of a document that has pages. *)
Theorem page_count_preserved readFile body g g' tr res existingPdfBytes pdfDoc :
  addWatermark readFile body g = (g', tr, Return res) →
  status res = 200 →
  Buffer_from_base64 (get "pdfBase64" body) = Return existingPdfBytes →
  PDFDocument_load existingPdfBytes = Return pdfDoc →
  let line1 := finalWatermarkLine1 (get "watermarkLine1" body) in
  ∃ line2 context pages modifiedPdfBytes,
    finalWatermarkLine2 (get "firstName" body) (get "lastName" body) = Return line2 ∧
    save context pages = Return modifiedPdfBytes ∧
    json res = VObj {[ "success" := VBool true;
                       "watermarkedPdfBase64" :=
                         VStr (Buffer_toString_base64 modifiedPdfBytes) ]} ∧
    length pages = length (doc_pages pdfDoc) ∧
    (λ c : nat * value * DrawTextOptions PDFFont Rotation, (c.1.1, c.1.2))
      <$> draw_calls tr =
    flat_map (λ i, [(i, line1); (i, line2)]) (seq 0 (length (doc_pages pdfDoc))) ∧
    (∀ i page, doc_pages pdfDoc !! i = Some page →
      ∃ o1 o2 page1 page2,
        draw_calls tr !! (2 * i) = Some (i, line1, o1) ∧
        draw_calls tr !! (2 * i + 1) = Some (i, line2, o2) ∧
        drawText page line1 o1 = Return page1 ∧
        drawText page1 line2 o2 = Return page2 ∧
        pages !! i = Some page2) ∧
    (base64_round_trip → save_keeps_page_count → doc_pages pdfDoc ≠ [] →
     ∃ responseDoc,
       response_document res = Return responseDoc ∧
       length (doc_pages responseDoc) = length (doc_pages pdfDoc)).
Proof.
  intros Hrun Hst Hbs Hdoc line1.
  destruct (addWatermark_200 _ _ _ _ _ _ Hrun Hst)
    as (pre & tr2 & -> & Hpre & bs' & doc' & c0 & c & f & line2 & draws & pages & out
        & Hbs' & Hdoc' & Hreg' & Hfont' & Hsave & -> & -> & Hlen & Hline2 & Hdraws).
  rewrite Hbs in Hbs'. simplify_eq. rewrite Hdoc in Hdoc'. simplify_eq.
  exists line2, c, pages, out.
  split; [done|]. split; [done|]. split; [done|]. split; [done|].
  rewrite draw_calls_app, Hpre, draw_calls_watermarked_trace. simpl.
  assert (base64_round_trip → save_keeps_page_count → doc_pages doc' ≠ [] →
    ∃ responseDoc,
      response_document
        {| status := 200;
           json := VObj {[ "success" := VBool true;
                           "watermarkedPdfBase64" :=
                             VStr (Buffer_toString_base64 out) ]} |}
        = Return responseDoc ∧
      length (doc_pages responseDoc) = length (doc_pages doc')) as Hback.
  { intros Hb64 Hkeep Hne.
    assert (pages ≠ []) as Hne'.
    { intros ->. destruct (doc_pages doc'); done. }
    destruct (Hkeep c pages out Hne' Hsave) as (doc & Hload & Hcount).
    exists doc. split; [|congruence].
    unfold response_document. cbn [json own_properties].
    replace (get "watermarkedPdfBase64" _)
      with (VStr (Buffer_toString_base64 out)) by done.
    rewrite Hb64. exact Hload. }
  destruct Hdraws as [[Hnil ->]|(rot & w & half & Hrot & Hw & Hh & -> & Hall)].
  { rewrite Hnil in *. split; [done|]. split; [by intros i page ?|done]. }
  split; [apply draw_calls_page_calls_targets|]. split; [|done].
  intros i page Hi.
  destruct (Forall2_lookup_l _ _ _ _ _ Hall Hi) as (page2 & Hi' & page1 & Hd1 & Hd2).
  destruct (draw_calls_page_calls_lookup
              (finalWatermarkOptions (get "watermarkOptions" body)) line1 line2
              f rot w half (doc_pages doc') 0 i page Hi) as [H1 H2].
  eexists _, _, page1, page2. by split_and!.
Qed.

(** ** Numbers in the options *)



(** ** Responses to bad requests and failures *)

(** C5 (amended). A request without [pdfBase64] is answered 400 with
    [{ error: "PDF data (pdfBase64) is required." }], whatever else it
    carries, provided the font guard lets it through: when the font is
    already loaded nothing at all is done before the answer, and when it is
    not, the only thing done is the font load, which has to succeed.  When
    the font is not loaded and cannot be read, the guard answers 500 before
    the request is looked at. *)
Theorem missing_pdf_rejected readFile (body : object) g :
  body !! "pdfBase64" = None →
  let missing :=
    {| status := 400;
       json := VObj {[ "error" := VStr "PDF data (pdfBase64) is required." ]} |} in
  (sarabunFontLoaded g = true →
     addWatermark readFile body g = (g, [], Return missing)) ∧
  (∀ b, sarabunFontLoaded g = false → readFile fontPath = Return b →
     addWatermark readFile body g =
     ({| sarabunFontBytes := Some b; sarabunFontLoaded := true |},
      [fs_readFile fontPath; console_log "Sarabun font loaded successfully."],
      Return missing)) ∧
  (∀ e, sarabunFontLoaded g = false → readFile fontPath = Throw e →
     addWatermark readFile body g =
     (g,
      [fs_readFile fontPath;
       console_error ("Error loading Sarabun font file at " +:+ fontPath +:+ ":") e],
      Return {| status := 500;
                json := VObj {[ "error" :=
                  VStr ("Failed to load Sarabun font: " +:+ message e) ]} |})).
Proof.
  intros Hno. cbv zeta.
  assert (∀ g0, process_body body g0 =
    (g0, [], Return {| status := 400;
       json := VObj {[ "error" := VStr "PDF data (pdfBase64) is required." ]} |}))
    as Hbody.
  { intros g0. rewrite process_body_run. by rewrite (get_None _ _ Hno). }
  split_and!.
  - intros Hl. by rewrite addWatermark_run, Hl, Hbody.
  - intros b Hl Hread. by rewrite addWatermark_run, Hl, Hread, Hbody.
  - intros e Hl Hread. by rewrite addWatermark_run, Hl, Hread.
Qed.

(** C7. The font is loaded lazily, with retry and without a partial cache.
    A request that finds the font not loaded reads the file once.  If the
    read succeeds the bytes are cached and the flag is set, and from then on
    no request, whatever it is, reads the file again or changes the cache;
    the [try] block embeds the cached bytes.  If the read fails, the globals
    are as before (flag false, nothing cached), the request is answered 500
    with the loader's message, and the next request reads the file again:
    when that read succeeds the font is loaded as if nothing had failed. *)
Theorem font_loader_lazy_with_retry readFile (body : object) g :
  sarabunFontLoaded g = false →
  file_reads (addWatermark readFile body g).1.2 = [fontPath] ∧
  (∀ b, readFile fontPath = Return b →
     let loaded := {| sarabunFontBytes := Some b; sarabunFontLoaded := true |} in
     (addWatermark readFile body g).1.1 = loaded ∧
     (∀ requests,
        (serve requests loaded).1 = loaded ∧
        Forall (λ out, file_reads out.1 = []) (serve requests loaded).2) ∧
     (∀ pdf fn ln wl wo tr res,
        try_block pdf fn ln wl wo loaded = (loaded, tr, Return res) →
        In (call_embedFont (Some b)) tr)) ∧
  (∀ e, readFile fontPath = Throw e →
     addWatermark readFile body g =
     (g,
      [fs_readFile fontPath;
       console_error ("Error loading Sarabun font file at " +:+ fontPath +:+ ":") e],
      Return {| status := 500;
                json := VObj {[ "error" :=
                  VStr ("Failed to load Sarabun font: " +:+ message e) ]} |}) ∧
     ∀ readFile' body' b,
       readFile' fontPath = Return b →
       ∃ tr1 r1 tr2 r2,
         serve [(readFile, body); (readFile', body')] g =
         ({| sarabunFontBytes := Some b; sarabunFontLoaded := true |},
          [(tr1, r1); (tr2, r2)]) ∧
         file_reads tr1 = [fontPath] ∧ file_reads tr2 = [fontPath]).
Proof.
  intros Hl. split; [by apply addWatermark_cold_reads|]. split.
  - intros b Hread loaded. split_and!.
    + rewrite addWatermark_run, Hl, Hread.
      destruct (process_body_globals body loaded) as (Hg & _ & _).
      fold loaded. by destruct (process_body body loaded) as [[g1 t1] r].
    + intros requests. by apply serve_loaded.
    + intros pdf fn ln wl wo tr res Htry.
      apply try_block_returns in Htry as [_ Hw].
      destruct Hw as (bs & doc & c0 & c & f & line2 & draws & pages & out
                      & _ & _ & _ & _ & _ & -> & _).
      simpl. auto.
  - intros e Hread.
    assert (addWatermark readFile body g =
     (g,
      [fs_readFile fontPath;
       console_error ("Error loading Sarabun font file at " +:+ fontPath +:+ ":") e],
      Return {| status := 500;
                json := VObj {[ "error" :=
                  VStr ("Failed to load Sarabun font: " +:+ message e) ]} |}))
      as Hfail.
    { by rewrite addWatermark_run, Hl, Hread. }
    split; [done|].
    intros readFile' body' b Hread'. simpl. rewrite Hfail.
    pose proof (addWatermark_cold_reads readFile' body' g Hl) as Hreads.
    rewrite addWatermark_run, Hl, Hread' in Hreads |- *.
    destruct (process_body_globals body'
                {| sarabunFontBytes := Some b; sarabunFontLoaded := true |})
      as (Hg & _ & _).
    destruct (process_body body' _) as [[g1 t1] r]. simpl in *. subst g1.
    eexists _, _, _, _. split; [done|]. by split.
Qed.


(** ** Further properties of the handler *)

Lemma embed_calls_app tr1 tr2 :
  embed_calls (tr1 ++ tr2) = embed_calls tr1 ++ embed_calls tr2.
Proof. unfold embed_calls. apply omap_app. Qed.

Lemma embed_calls_page_calls opts l1 l2 font rot w half k pages :
  embed_calls (page_calls opts l1 l2 font rot w half k pages) = [].
Proof. revert k. induction pages as [|p pages IH]; intros k; simpl; auto. Qed.

Lemma forEach_watermark_no_embed opts l1 l2 font pages g :
  embed_calls (forEach (watermarkPage opts l1 l2 font font) pages g).1.2 = [].
Proof.
  destruct (forEach_watermark_cases opts l1 l2 font pages g)
    as (tr & r & -> &
        [(_ & -> & _)|[(e & -> & _)|(rot & w & half & _ & _ & _ & [rest Hpre] & _)]]);
    simpl; try done.
  pose proof (embed_calls_page_calls opts l1 l2 font rot w half 0 pages) as Hall.
  rewrite Hpre, embed_calls_app in Hall. by apply app_eq_nil in Hall as [? _].
Qed.

(** Whatever [embedFont] is called with is what the globals hold. *)
Lemma process_body_embed body g :
  Forall (λ b, b = sarabunFontBytes g) (embed_calls (process_body body g).1.2).
Proof.
  rewrite process_body_run. destruct (ToBoolean _); [|by constructor].
  assert (Forall (λ b, b = sarabunFontBytes g)
    (embed_calls (try_block (get "pdfBase64" body) (get "firstName" body)
       (get "lastName" body) (get "watermarkLine1" body)
       (get "watermarkOptions" body) g).1.2)) as Htry.
  { rewrite try_block_run.
    destruct (Buffer_from_base64 _) as [bs|e]; [|by constructor].
    destruct (PDFDocument_load bs) as [doc|e]; [|by constructor].
    destruct (registerFontkit _) as [ctx|e]; [|by constructor].
    cbv zeta. destruct (embedFont _ _) as [[ctx' font]|e]; [|by repeat constructor].
    destruct (finalWatermarkLine2 _ _) as [line2|e]; [|by repeat constructor].
    pose proof (forEach_watermark_no_embed
      (finalWatermarkOptions (get "watermarkOptions" body))
      (finalWatermarkLine1 (get "watermarkLine1" body)) line2
      font (doc_pages doc) g) as Hno.
    destruct (forEach _ _ g) as [[g1 draws] [pages|e]]; simpl in *;
      rewrite ?embed_calls_app, Hno; by repeat constructor. }
  destruct (try_block _ _ _ _ _ g) as [[g1 t1] [res|e]]; simpl in *; [done|].
  rewrite embed_calls_app. simpl. by rewrite app_nil_r.
Qed.

Lemma addWatermark_consistent readFile body g :
  cache_consistent g →
  cache_consistent (addWatermark readFile body g).1.1 ∧
  Forall is_Some (embed_calls (addWatermark readFile body g).1.2).
Proof.
  intros Hc. rewrite addWatermark_run.
  destruct (sarabunFontLoaded g) eqn:Hl.
  - destruct (process_body_globals body g) as (Hg & _ & _).
    pose proof (process_body_embed body g) as He.
    destruct (process_body body g) as [[g1 t1] r]. simpl in *. subst g1.
    split; [done|]. eapply Forall_impl; [exact He|].
    intros b ->. apply Hc. done.
  - destruct (readFile fontPath) as [b|e]; [|by split; [|constructor]].
    destruct (process_body_globals body
                {| sarabunFontBytes := Some b; sarabunFontLoaded := true |})
      as (Hg & _ & _).
    pose proof (process_body_embed body
                {| sarabunFontBytes := Some b; sarabunFontLoaded := true |}) as He.
    destruct (process_body body _) as [[g1 t1] r]. simpl in *. subst g1.
    split; [by split|]. eapply Forall_impl; [exact He|].
    intros ? ->. by eexists.
Qed.

(** X4. The flag is set exactly when bytes are cached, and requests keep it
    so: from globals where this holds, after any requests it still holds,
    and every [embedFont] call of every request was given bytes, never
    [undefined]. *)
Theorem cache_stays_consistent requests g :
  cache_consistent g →
  cache_consistent (serve requests g).1 ∧
  Forall (λ out : list event * completion response,
            Forall is_Some (embed_calls out.1))
    (serve requests g).2.
Proof.
  revert g. induction requests as [|[readFile body] requests IH]; intros g Hc.
  { by split; [|constructor]. }
  simpl. destruct (addWatermark_consistent readFile body g Hc) as [Hc1 He].
  destruct (addWatermark readFile body g) as [[g1 tr] r]. simpl in *.
  destruct (IH g1 Hc1) as [Hc2 Hall].
  destruct (serve requests g1) as [g2 out]. simpl in *. split; [done|].
  by constructor.
Qed.

(** X1. With the font loaded, a [pdfBase64] that is there but falsy -- the
    empty string, [null], [false], [0] -- is answered like a missing one:
    400 with the same message, and nothing else is done. *)
Theorem falsy_pdf_rejected readFile (body : object) g v :
  body !! "pdfBase64" = Some v →
  ToBoolean v = false →
  sarabunFontLoaded g = true →
  addWatermark readFile body g =
  (g, [],
   Return {| status := 400;
             json := VObj {[ "error" := VStr "PDF data (pdfBase64) is required." ]} |}).
Proof.
  intros Hv Hfalsy Hl.
  rewrite addWatermark_run, Hl, process_body_run, (get_Some _ _ _ Hv), Hfalsy.
  done.
Qed.

Lemma falsy_own_properties v : ToBoolean v = false → own_properties v = ∅.
Proof. destruct v as [| | | |[|c s]| |]; simpl; try done. Qed.

Lemma falsy_js_or v d : ToBoolean v = false → js_or v d = js_or VUndefined d.
Proof. intros Hv. unfold js_or. by rewrite Hv. Qed.

Lemma process_body_falsy (k : string) (body : object) v :
  k ∈ ["pdfBase64"; "firstName"; "lastName"; "watermarkLine1"; "watermarkOptions"] →
  body !! k = Some v →
  ToBoolean v = false →
  process_body body = process_body (delete k body).
Proof.
  intros Hk Hv Hfalsy.
  repeat (apply elem_of_cons in Hk as [->|Hk]); [..|by apply elem_of_nil in Hk];
    unfold process_body;
    rewrite get_delete_eq, !get_delete_ne, (get_Some _ _ _ Hv) by done.
  - by rewrite Hfalsy.
  - unfold try_block, finalWatermarkLine2. by rewrite (falsy_js_or v).
  - unfold try_block, finalWatermarkLine2. by rewrite (falsy_js_or v).
  - unfold try_block, finalWatermarkLine1. by rewrite (falsy_js_or v).
  - unfold try_block, finalWatermarkOptions, spread.
    by rewrite (falsy_own_properties v).
Qed.

(** X2. A falsy value ([""], [null], [false], [0]) in any of the five request
    properties the handler reads is the same as leaving the property out:
    the handler is the same function of the globals. *)
Theorem falsy_property_as_absent readFile (k : string) (body : object) v :
  k ∈ ["pdfBase64"; "firstName"; "lastName"; "watermarkLine1"; "watermarkOptions"] →
  body !! k = Some v →
  ToBoolean v = false →
  addWatermark readFile body = addWatermark readFile (delete k body).
Proof.
  intros Hk Hv Hfalsy. apply addWatermark_ext. by eapply process_body_falsy.
Qed.

(** X3. The handler never throws, and its answer has one of four shapes:
    200 with [success] and the document; 400 with the missing-PDF message,
    only when [pdfBase64] is falsy; 500 with the loader's message alone,
    only when the font was not loaded and the read failed; 500 with the
    processing message and [details], only when [pdfBase64] is truthy. *)
Theorem response_shapes readFile (body : object) g :
  ∃ res,
    (addWatermark readFile body g).2 = Return res ∧
    ((status res = 200 ∧
      ∃ watermarkedPdfBase64,
        json res = VObj {[ "success" := VBool true;
                           "watermarkedPdfBase64" := VStr watermarkedPdfBase64 ]}) ∨
     (status res = 400 ∧
      ToBoolean (get "pdfBase64" body) = false ∧
      json res = VObj {[ "error" := VStr "PDF data (pdfBase64) is required." ]}) ∨
     (status res = 500 ∧
      sarabunFontLoaded g = false ∧
      ∃ e, readFile fontPath = Throw e ∧
        json res = VObj {[ "error" :=
                     VStr ("Failed to load Sarabun font: " +:+ message e) ]}) ∨
     (status res = 500 ∧
      ToBoolean (get "pdfBase64" body) = true ∧
      ∃ details,
        json res = VObj {[ "error" := VStr "Failed to generate watermarked PDF";
                           "details" := VStr details ]})).
Proof.
  assert (∀ g0, ∃ res,
    (process_body body g0).2 = Return res ∧
    ((status res = 200 ∧
      ∃ watermarkedPdfBase64,
        json res = VObj {[ "success" := VBool true;
                           "watermarkedPdfBase64" := VStr watermarkedPdfBase64 ]}) ∨
     (status res = 400 ∧
      ToBoolean (get "pdfBase64" body) = false ∧
      json res = VObj {[ "error" := VStr "PDF data (pdfBase64) is required." ]}) ∨
     (status res = 500 ∧
      ToBoolean (get "pdfBase64" body) = true ∧
      ∃ details,
        json res = VObj {[ "error" := VStr "Failed to generate watermarked PDF";
                           "details" := VStr details ]}))) as Hbody.
  { intros g0. rewrite process_body_run.
    destruct (ToBoolean _) eqn:Hpdf.
    - destruct (try_block _ _ _ _ _ g0) as [[g1 t1] [res|e]] eqn:Htry.
      + apply try_block_returns in Htry as [_ Hw].
        destruct Hw as (? & ? & ? & ? & ? & ? & ? & ? & out
                        & _ & _ & _ & _ & _ & _ & -> & _).
        eexists. split; [done|]. left. split; [done|]. by eexists.
      + eexists. split; [done|]. right; right. split; [done|]. split; [done|].
        by eexists.
    - eexists. split; [done|]. right; left. done. }
  rewrite addWatermark_run. destruct (sarabunFontLoaded g) eqn:Hl.
  - destruct (Hbody g) as (res & Hres & [?|[?|?]]); exists res; split; auto.
  - destruct (readFile fontPath) as [b|e] eqn:Hread.
    + destruct (Hbody {| sarabunFontBytes := Some b; sarabunFontLoaded := true |})
        as (res & Hres & Hcase).
      destruct (process_body body _) as [[g1 t1] r]. simpl in *.
      exists res. split; [done|]. destruct Hcase as [?|[?|?]]; auto.
    + eexists. split; [done|]. right; right; left.
      split; [done|]. split; [done|]. by exists e.
Qed.

Lemma startup_run readFile g :
  startup readFile g =
  if sarabunFontLoaded g then (g, [], Return tt) else loadSarabunFont readFile g.
Proof.
  unfold startup. unfold mbind at 1, M_bind, read.
  destruct (sarabunFontLoaded g); simpl; [done|].
  destruct (loadSarabunFont readFile g) as [[g1 t1] [[]|e]]; by rewrite ?app_nil_r.
Qed.

(** X5. The start-up load and the first request.  If the start-up read
    succeeds, the font is cached, the first request reads no file, and a
    request that had to load the same bytes itself differs only by the
    read and the log line in front of its trace: same globals afterwards,
    same calls, same answer.  If the start-up read fails, the globals are
    as before, the rejection carries the loader's message, and the first
    request reads the file again. *)
Theorem startup_then_first_request readFile0 readFile (body : object) g :
  sarabunFontLoaded g = false →
  (∀ b, readFile0 fontPath = Return b →
     let loaded := {| sarabunFontBytes := Some b; sarabunFontLoaded := true |} in
     startup readFile0 g =
       (loaded,
        [fs_readFile fontPath; console_log "Sarabun font loaded successfully."],
        Return tt) ∧
     (addWatermark readFile body loaded).1.1 = loaded ∧
     file_reads (addWatermark readFile body loaded).1.2 = [] ∧
     (readFile fontPath = Return b →
        addWatermark readFile body g =
        (loaded,
         [fs_readFile fontPath; console_log "Sarabun font loaded successfully."]
           ++ (addWatermark readFile body loaded).1.2,
         (addWatermark readFile body loaded).2))) ∧
  (∀ e, readFile0 fontPath = Throw e →
     startup readFile0 g =
       (g,
        [fs_readFile fontPath;
         console_error ("Error loading Sarabun font file at " +:+ fontPath +:+ ":") e],
        Throw {| message := "Failed to load Sarabun font: " +:+ message e |}) ∧
     file_reads (addWatermark readFile body g).1.2 = [fontPath]).
Proof.
  intros Hl. split.
  - intros b Hread0 loaded.
    destruct (addWatermark_loaded readFile body loaded eq_refl) as [Hg Hr].
    split_and!; try done.
    + rewrite startup_run, Hl. by apply loadSarabunFont_returns.
    + intros Hread. rewrite (addWatermark_run _ _ g), Hl, Hread.
      rewrite (addWatermark_run _ _ loaded). simpl. fold loaded.
      destruct (process_body_globals body loaded) as (Hg' & _ & _).
      destruct (process_body body loaded) as [[g1 t1] r]. simpl in *. by subst g1.
  - intros e Hread0. split.
    + rewrite startup_run, Hl. by apply loadSarabunFont_throws.
    + by apply addWatermark_cold_reads.
Qed.

Lemma draw_calls_page_calls_length opts l1 l2 font rot w half k pages :
  length (draw_calls (page_calls opts l1 l2 font rot w half k pages)) = 2 * length pages.
Proof.
  revert k. induction pages as [|p pages IH]; intros k; simpl; [done|].
  rewrite IH. lia.
Qed.

(** X6. However a request ends, its [j]-th draw call is on page [j / 2] and
    draws line 1 when [j] is even and line 2 when it is odd: pages are
    taken in order, none is skipped or drawn on twice, and line 2 never
    comes before line 1, also in a request that fails half way. *)
Theorem draws_in_page_order readFile (body : object) g j i text o :
  draw_calls (addWatermark readFile body g).1.2 !! j = Some (i, text, o) →
  i = j `div` 2 ∧
  Return text =
    (if Nat.even j
     then Return (finalWatermarkLine1 (get "watermarkLine1" body))
     else finalWatermarkLine2 (get "firstName" body) (get "lastName" body)).
Proof.
  intros Hj.
  destruct (addWatermark_draws readFile body g)
    as [Hnil|(line2 & font & rot & w & half & pages & Hline2 & _ & _ & _ & Hpre)];
    [by rewrite Hnil in Hj|].
  pose proof (prefix_lookup_Some _ _ _ _ Hj Hpre) as Hj'.
  apply draw_calls_page_calls_lookup_inv in Hj' as (i' & page & _ & Hcase).
  split.
  - destruct Hcase as [[-> ?]|[-> ?]]; simplify_eq.
    + by rewrite Nat.mul_comm, Nat.div_mul.
    + rewrite Nat.mul_comm, Nat.div_add_l by done. simpl. lia.
  - destruct Hcase as [[-> ?]|[-> ?]]; simplify_eq.
    + by rewrite Nat.even_mul.
    + by rewrite Nat.add_1_r, Nat.even_succ, <- Nat.negb_even, Nat.even_mul.
Qed.

Lemma save_calls_app tr1 tr2 :
  save_calls (tr1 ++ tr2) = save_calls tr1 ++ save_calls tr2.
Proof. unfold save_calls. apply omap_app. Qed.

Lemma save_calls_page_calls opts l1 l2 font rot w half k pages :
  save_calls (page_calls opts l1 l2 font rot w half k pages) = [].
Proof. revert k. induction pages as [|p pages IH]; intros k; simpl; auto. Qed.

Lemma forEach_watermark_no_save opts l1 l2 font pages g :
  save_calls (forEach (watermarkPage opts l1 l2 font font) pages g).1.2 = [].
Proof.
  destruct (forEach_watermark_cases opts l1 l2 font pages g)
    as (tr & r & -> &
        [(_ & -> & _)|[(e & -> & _)|(rot & w & half & _ & _ & _ & [rest Hpre] & _)]]);
    simpl; try done.
  pose proof (save_calls_page_calls opts l1 l2 font rot w half 0 pages) as Hall.
  rewrite Hpre, save_calls_app in Hall. by apply app_eq_nil in Hall as [? _].
Qed.

(** X7. [save] is called at most once, and only after every page of the
    loaded document has had both draw calls: a trace with a [save] splits
    at it; before it come, page by page in order, the line-1 and the line-2
    call of every page and no other draw call; after it nothing is drawn
    or saved -- there is nothing at all, or the error log when [save]
    threw. *)
Theorem save_only_after_all_draws readFile (body : object) g :
  let tr := (addWatermark readFile body g).1.2 in
  let line1 := finalWatermarkLine1 (get "watermarkLine1" body) in
  save_calls tr = [] ∨
  ∃ before after existingPdfBytes pdfDoc line2,
    tr = before ++ call_save :: after ∧
    save_calls before = [] ∧
    (after = [] ∨
     ∃ e, after = [console_error "Error generating watermarked PDF:" e]) ∧
    Buffer_from_base64 (get "pdfBase64" body) = Return existingPdfBytes ∧
    PDFDocument_load existingPdfBytes = Return pdfDoc ∧
    finalWatermarkLine2 (get "firstName" body) (get "lastName" body) = Return line2 ∧
    (λ c : nat * value * DrawTextOptions PDFFont Rotation, (c.1.1, c.1.2))
      <$> draw_calls before =
    flat_map (λ i, [(i, line1); (i, line2)]) (seq 0 (length (doc_pages pdfDoc))) ∧
    length (draw_calls before) = 2 * length (doc_pages pdfDoc).
Proof.
  cbv zeta.
  assert (∀ g0,
    save_calls (process_body body g0).1.2 = [] ∨
    ∃ before after existingPdfBytes pdfDoc line2,
      (process_body body g0).1.2 = before ++ call_save :: after ∧
      save_calls before = [] ∧
      (after = [] ∨
       ∃ e, after = [console_error "Error generating watermarked PDF:" e]) ∧
      Buffer_from_base64 (get "pdfBase64" body) = Return existingPdfBytes ∧
      PDFDocument_load existingPdfBytes = Return pdfDoc ∧
      finalWatermarkLine2 (get "firstName" body) (get "lastName" body)
        = Return line2 ∧
      (λ c : nat * value * DrawTextOptions PDFFont Rotation, (c.1.1, c.1.2))
        <$> draw_calls before =
      flat_map (λ i, [(i, finalWatermarkLine1 (get "watermarkLine1" body));
                      (i, line2)]) (seq 0 (length (doc_pages pdfDoc))) ∧
      length (draw_calls before) = 2 * length (doc_pages pdfDoc))
    as Hbody.
  { intros g0. rewrite process_body_run.
    destruct (ToBoolean _); [|by left].
    rewrite try_block_run.
    destruct (Buffer_from_base64 _) as [bs|e] eqn:Hbs; [|by left].
    destruct (PDFDocument_load bs) as [doc|e] eqn:Hdoc; [|by left].
    destruct (registerFontkit _) as [ctx|e]; [|by left].
    cbv zeta. destruct (embedFont _ _) as [[ctx' font]|e]; [|by left].
    destruct (finalWatermarkLine2 _ _) as [line2|e] eqn:Hline2; [|by left].
    pose proof (forEach_watermark_no_save
      (finalWatermarkOptions (get "watermarkOptions" body))
      (finalWatermarkLine1 (get "watermarkLine1" body)) line2
      font (doc_pages doc) g0) as Hno.
    destruct (forEach_watermark_cases
      (finalWatermarkOptions (get "watermarkOptions" body))
      (finalWatermarkLine1 (get "watermarkLine1" body)) line2
      font (doc_pages doc) g0) as (draws & r & Hrun & Hcases).
    rewrite Hrun in *. simpl in Hno.
    destruct r as [pages|e].
    - right.
      assert ((λ c : nat * value * DrawTextOptions PDFFont Rotation, (c.1.1, c.1.2))
                <$> draw_calls draws =
              flat_map (λ i, [(i, finalWatermarkLine1 (get "watermarkLine1" body));
                              (i, line2)]) (seq 0 (length (doc_pages doc))) ∧
              length (draw_calls draws) = 2 * length (doc_pages doc))
        as [Htargets Hlen].
      { destruct Hcases as
          [(-> & -> & _)|[(e & _ & ? & _)|(rot & w & half & _ & _ & _ & _ & Hret)]];
          [done|done|].
        destruct (Hret pages eq_refl) as [-> _].
        split; [apply draw_calls_page_calls_targets
               |apply draw_calls_page_calls_length]. }
      exists ([call_Buffer_from (get "pdfBase64" body); call_PDFDocument_load bs;
               call_registerFontkit; call_embedFont (sarabunFontBytes g0)] ++ draws),
        (match save ctx' pages with
         | Return _ => []
         | Throw e => [console_error "Error generating watermarked PDF:" e]
         end), bs, doc, line2.
      split_and!; try done.
      + destruct (save ctx' pages); simpl; [done|].
        by rewrite <- (assoc_L (++)).
      + destruct (save ctx' pages); [by left|right; by eexists].
    - left. simpl. by rewrite !save_calls_app, Hno. }
  rewrite addWatermark_run.
  destruct (sarabunFontLoaded g); [apply Hbody|].
  destruct (readFile fontPath) as [b|e]; [|by left].
  specialize (Hbody {| sarabunFontBytes := Some b; sarabunFontLoaded := true |}).
  destruct (process_body body _) as [[g1 t1] r]. simpl in *.
  destruct Hbody as [Hnil|(before & after & bs & doc & line2 & -> & Hbefore & Hrest)];
    [by left|right].
  exists (fs_readFile fontPath :: console_log "Sarabun font loaded successfully."
            :: before), after, bs, doc, line2.
  done.
Qed.


Lemma watermarkPage_ext opts opts' l1 l2 font page i g :
  (∀ k, k ∈ ["size"; "opacity"; "rotate"; "sizesubtitle"] → get k opts = get k opts') →
  watermarkPage opts l1 l2 font font page i g =
  watermarkPage opts' l1 l2 font font page i g.
Proof.
  intros Hk. rewrite !watermarkPage_run. unfold options1, options2.
  rewrite !(Hk "size"), !(Hk "opacity"), !(Hk "rotate"), !(Hk "sizesubtitle")
    by in_list.
  done.
Qed.

Lemma forEach_watermark_ext opts opts' l1 l2 font pages :
  (∀ k, k ∈ ["size"; "opacity"; "rotate"; "sizesubtitle"] → get k opts = get k opts') →
  ∀ k g,
  forEach_from (watermarkPage opts l1 l2 font font) k pages g =
  forEach_from (watermarkPage opts' l1 l2 font font) k pages g.
Proof.
  intros Hk. induction pages as [|page pages IH]; intros k g; [done|].
  rewrite !forEach_from_cons, (watermarkPage_ext opts opts') by done.
  destruct (watermarkPage opts' _ _ _ _ _ _ _) as [[g1 t1] [p|e]]; [|done].
  by rewrite IH.
Qed.

(** X9. The handler reads [pdfBase64], [firstName], [lastName],
    [watermarkLine1] and, of the merged options, [size], [opacity],
    [rotate] and [sizesubtitle], and nothing else: two requests that agree
    on these get the same calls and the same answer (a [color] option, for
    one, changes nothing). *)
Theorem unread_properties_ignored readFile (body body' : object) g :
  (∀ k, k ∈ ["pdfBase64"; "firstName"; "lastName"; "watermarkLine1"] →
        body !! k = body' !! k) →
  (∀ k, k ∈ ["size"; "opacity"; "rotate"; "sizesubtitle"] →
        finalWatermarkOptions (get "watermarkOptions" body) !! k =
        finalWatermarkOptions (get "watermarkOptions" body') !! k) →
  addWatermark readFile body g = addWatermark readFile body' g.
Proof.
  intros Hbody Hopts.
  assert (∀ k, k ∈ ["pdfBase64"; "firstName"; "lastName"; "watermarkLine1"] →
            get k body = get k body') as Hget.
  { intros k Hk. unfold get. by rewrite (Hbody k Hk). }
  assert (∀ k, k ∈ ["size"; "opacity"; "rotate"; "sizesubtitle"] →
            get k (finalWatermarkOptions (get "watermarkOptions" body)) =
            get k (finalWatermarkOptions (get "watermarkOptions" body'))) as Hgo.
  { intros k Hk. unfold get at 1 3. by rewrite (Hopts k Hk). }
  assert (∀ g0, process_body body g0 = process_body body' g0) as Hpb.
  { intros g0. rewrite !process_body_run.
    rewrite <- !(Hget "pdfBase64"), <- !(Hget "firstName"), <- !(Hget "lastName"),
      <- !(Hget "watermarkLine1") by in_list.
    destruct (ToBoolean _); [|done].
    rewrite !try_block_run.
    destruct (Buffer_from_base64 _) as [bs|e]; [|done].
    destruct (PDFDocument_load bs) as [doc|e]; [|done].
    destruct (registerFontkit _) as [ctx|e]; [|done].
    cbv zeta. destruct (embedFont _ _) as [[ctx' font]|e]; [|done].
    destruct (finalWatermarkLine2 _ _) as [line2|e]; [|done].
    unfold forEach.
    by rewrite (forEach_watermark_ext _ _ _ _ _ _ Hgo). }
  rewrite !addWatermark_run. destruct (sarabunFontLoaded g); [apply Hpb|].
  destruct (readFile fontPath); [|done]. by rewrite Hpb.
Qed.

(** X10. In a request answered with the watermarked document, two pages of
    the same size get the same two draw calls: same texts, same origins,
    same size, opacity, rotation, font and colour. *)
Theorem same_size_same_placement readFile (body : object) g g' tr res
    existingPdfBytes pdfDoc :
  addWatermark readFile body g = (g', tr, Return res) →
  status res = 200 →
  Buffer_from_base64 (get "pdfBase64" body) = Return existingPdfBytes →
  PDFDocument_load existingPdfBytes = Return pdfDoc →
  ∀ i j page page',
    doc_pages pdfDoc !! i = Some page →
    doc_pages pdfDoc !! j = Some page' →
    getSize page = getSize page' →
    ∃ text1 text2 o1 o2,
      draw_calls tr !! (2 * i) = Some (i, text1, o1) ∧
      draw_calls tr !! (2 * j) = Some (j, text1, o1) ∧
      draw_calls tr !! (2 * i + 1) = Some (i, text2, o2) ∧
      draw_calls tr !! (2 * j + 1) = Some (j, text2, o2).
Proof.
  intros Hrun Hst Hbs Hdoc i j page page' Hi Hj Hsize.
  destruct (success_font _ _ _ _ _ _ _ _ Hrun Hst Hbs Hdoc)
    as (c0 & c & f & Hreg & Hfont).
  destruct (success_page_draws _ _ _ _ _ _ _ _ _ _ _ Hrun Hst Hbs Hdoc Hreg Hfont)
    as (line2 & _ & Hpages).
  destruct (Hpages i page Hi) as (rot & w & half & Hrot & Hw & Hh & Hi1 & Hi2).
  destruct (Hpages j page' Hj) as (rot' & w' & half' & Hrot' & Hw' & Hh' & Hj1 & Hj2).
  rewrite Hrot in Hrot'. rewrite Hw in Hw'. rewrite Hh in Hh'. simplify_eq.
  eexists _, _, _, _. split_and!; [exact Hi1| |exact Hi2|].
  - rewrite Hj1. unfold options1. by rewrite Hsize.
  - rewrite Hj2. unfold options2. by rewrite Hsize.
Qed.

Lemma addWatermark_globals readFile body body' g :
  (addWatermark readFile body g).1.1 = (addWatermark readFile body' g).1.1.
Proof.
  rewrite !addWatermark_run. destruct (sarabunFontLoaded g).
  - destruct (process_body_globals body g) as (-> & _).
    by destruct (process_body_globals body' g) as (-> & _).
  - destruct (readFile fontPath) as [b|e]; [|done].
    destruct (process_body_globals body
      {| sarabunFontBytes := Some b; sarabunFontLoaded := true |}) as (Hg & _).
    destruct (process_body_globals body'
      {| sarabunFontBytes := Some b; sarabunFontLoaded := true |}) as (Hg' & _).
    destruct (process_body body _) as [[g1 t1] r].
    destruct (process_body body' _) as [[g1' t1'] r']. simpl in *. congruence.
Qed.

Lemma page_calls_placement opts l1 l2 l2' font rot w half pages :
  ∀ k,
  (λ c : nat * value * DrawTextOptions PDFFont Rotation, (c.1.1, c.2))
    <$> draw_calls (page_calls opts l1 l2 font rot w half k pages) =
  (λ c : nat * value * DrawTextOptions PDFFont Rotation, (c.1.1, c.2))
    <$> draw_calls (page_calls opts l1 l2' font rot w half k pages).
Proof.
  induction pages as [|p pages IH]; intros k; simpl; [done|]. by rewrite IH.
Qed.

(** X11. The names only change the text of line 2.  Two requests that
    differ in nothing but [firstName] and [lastName], both answered with
    the watermarked document, make their draw calls on the same pages with
    the same options, call by call. *)
Theorem names_only_change_line2_text readFile (body body' : object) g
    g1 tr res g1' tr' res' :
  (∀ k, k ∈ ["pdfBase64"; "watermarkLine1"; "watermarkOptions"] →
        body !! k = body' !! k) →
  addWatermark readFile body g = (g1, tr, Return res) →
  addWatermark readFile body' g = (g1', tr', Return res') →
  status res = 200 →
  status res' = 200 →
  (λ c : nat * value * DrawTextOptions PDFFont Rotation, (c.1.1, c.2))
    <$> draw_calls tr =
  (λ c : nat * value * DrawTextOptions PDFFont Rotation, (c.1.1, c.2))
    <$> draw_calls tr'.
Proof.
  intros Hbody Hrun Hrun' Hst Hst'.
  assert (∀ k, k ∈ ["pdfBase64"; "watermarkLine1"; "watermarkOptions"] →
            get k body' = get k body) as Hget.
  { intros k Hk. unfold get. by rewrite (Hbody k Hk). }
  pose proof (addWatermark_globals readFile body body' g) as Hg.
  rewrite Hrun, Hrun' in Hg. simpl in Hg. subst g1'.
  destruct (addWatermark_200 _ _ _ _ _ _ Hrun Hst)
    as (pre & tr2 & -> & Hpre & bs & doc & c0 & c & f & line2 & draws & pages & out
        & Hbs & Hdoc & Hreg & Hfont & _ & -> & _ & _ & _ & Hdraws).
  destruct (addWatermark_200 _ _ _ _ _ _ Hrun' Hst')
    as (pre' & tr2' & -> & Hpre' & bs' & doc' & c0' & c' & f' & line2' & draws'
        & pages' & out' & Hbs' & Hdoc' & Hreg' & Hfont' & _ & -> & _ & _ & _ & Hdraws').
  rewrite !(Hget "pdfBase64") in Hbs' by in_list.
  rewrite !(Hget "watermarkLine1"), !(Hget "watermarkOptions") in Hdraws' by in_list.
  rewrite Hbs in Hbs'. simplify_eq. rewrite Hdoc in Hdoc'. simplify_eq.
  rewrite Hreg in Hreg'. simplify_eq. rewrite Hfont in Hfont'. simplify_eq.
  rewrite (draw_calls_app pre), (draw_calls_app pre'), Hpre, Hpre',
    !draw_calls_watermarked_trace. simpl.
  destruct Hdraws as [[Hnil ->]|(rot & w & half & Hrot & Hw & Hh & -> & _)];
    destruct Hdraws' as [[Hnil' ->]|(rot' & w' & half' & Hrot' & Hw' & Hh' & -> & _)].
  - done.
  - by rewrite Hnil.
  - by rewrite Hnil'.
  - rewrite Hrot in Hrot'. rewrite Hw in Hw'. rewrite Hh in Hh'. simplify_eq.
    apply page_calls_placement.
Qed.

(** However a request ends, its draw calls are an initial part of the page
    loop over the document it loaded, with the font it embedded. *)
Lemma addWatermark_draws_full readFile body g :
  let opts := finalWatermarkOptions (get "watermarkOptions" body) in
  let line1 := finalWatermarkLine1 (get "watermarkLine1" body) in
  draw_calls (addWatermark readFile body g).1.2 = [] ∨
  ∃ bs doc c0 c font line2 rot w half,
    Buffer_from_base64 (get "pdfBase64" body) = Return bs ∧
    PDFDocument_load bs = Return doc ∧
    registerFontkit (doc_context doc) = Return c0 ∧
    embedFont c0 (sarabunFontBytes (addWatermark readFile body g).1.1)
      = Return (c, font) ∧
    finalWatermarkLine2 (get "firstName" body) (get "lastName" body) = Return line2 ∧
    degrees (get "rotate" opts) = Return rot ∧
    widthOfTextAtSize font line1 (get "size" opts) = Return w ∧
    js_div (get "size" opts) 2 = Return half ∧
    draw_calls (addWatermark readFile body g).1.2 `prefix_of`
      draw_calls (page_calls opts line1 line2 font rot w half 0 (doc_pages doc)).
Proof.
  intros opts line1.
  assert (∀ g0,
    draw_calls (process_body body g0).1.2 = [] ∨
    ∃ bs doc c0 c font line2 rot w half,
      Buffer_from_base64 (get "pdfBase64" body) = Return bs ∧
      PDFDocument_load bs = Return doc ∧
      registerFontkit (doc_context doc) = Return c0 ∧
      embedFont c0 (sarabunFontBytes g0) = Return (c, font) ∧
      finalWatermarkLine2 (get "firstName" body) (get "lastName" body)
        = Return line2 ∧
      degrees (get "rotate" opts) = Return rot ∧
      widthOfTextAtSize font line1 (get "size" opts) = Return w ∧
      js_div (get "size" opts) 2 = Return half ∧
      draw_calls (process_body body g0).1.2 `prefix_of`
        draw_calls (page_calls opts line1 line2 font rot w half 0 (doc_pages doc)))
    as Hbody.
  { intros g0. rewrite process_body_run.
    destruct (ToBoolean _); [|by left].
    rewrite try_block_run.
    destruct (Buffer_from_base64 _) as [bs|e] eqn:Hbs; [|by left].
    destruct (PDFDocument_load bs) as [doc|e] eqn:Hdoc; [|by left].
    destruct (registerFontkit _) as [ctx|e] eqn:Hreg; [|by left].
    cbv zeta. destruct (embedFont _ _) as [[ctx' font]|e] eqn:Hfont; [|by left].
    destruct (finalWatermarkLine2 _ _) as [line2|e] eqn:Hline2; [|by left].
    destruct (forEach_watermark_cases opts line1 line2 font (doc_pages doc) g0)
      as (draws & r & Hrun & Hcases).
    fold opts line1. rewrite Hrun.
    assert (draw_calls draws = [] ∨ ∃ rot w half,
      degrees (get "rotate" opts) = Return rot ∧
      widthOfTextAtSize font line1 (get "size" opts) = Return w ∧
      js_div (get "size" opts) 2 = Return half ∧
      draw_calls draws `prefix_of`
        draw_calls (page_calls opts line1 line2 font rot w half 0 (doc_pages doc)))
      as [Hnil|(rot & w & half & Hrot & Hw & Hh & Hpre)].
    { destruct Hcases as
        [(_ & -> & _)|[(e & -> & _)|(rot & w & half & Hrot & Hw & Hh & Hpre & _)]];
        [by left|by left|].
      right. exists rot, w, half. split_and!; try done.
      by apply prefix_draw_calls. }
    - left. destruct r as [pages|e]; [destruct (save ctx' pages)|]; simpl;
        rewrite ?draw_calls_app; simpl; rewrite ?draw_calls_app, Hnil; done.
    - right. exists bs, doc, ctx, ctx', font, line2, rot, w, half.
      split_and!; try done.
      destruct r as [pages|e]; [destruct (save ctx' pages)|]; simpl;
        rewrite ?draw_calls_app; simpl; rewrite ?draw_calls_app; simpl;
        rewrite ?app_nil_r; done. }
  rewrite addWatermark_run.
  destruct (sarabunFontLoaded g).
  - destruct (process_body_globals body g) as (-> & _). apply Hbody.
  - destruct (readFile fontPath) as [b|e]; [|by left].
    specialize (Hbody {| sarabunFontBytes := Some b; sarabunFontLoaded := true |}).
    destruct (process_body_globals body
      {| sarabunFontBytes := Some b; sarabunFontLoaded := true |}) as (Hg & _).
    destruct (process_body body _) as [[g1 t1] r]. simpl in *. by subst g1.
Qed.

(** X12. Every draw call that is made, in whatever request, is placed as
    on a successful one: it is on a page of the loaded document, with the
    font embedded from the cached bytes, the fixed grey, [options.opacity]
    and [degrees(options.rotate)]; an even call is at the centred line-1
    origin -- half the measured width left of the centre and half of
    [options.size] below it, [n / 2] for a size of [n] -- with
    [options.size], an odd one 20 left and 30 below that with
    [options.sizesubtitle]. *)
Theorem every_draw_call_placed readFile (body : object) g j i text o :
  draw_calls (addWatermark readFile body g).1.2 !! j = Some (i, text, o) →
  let options := finalWatermarkOptions (get "watermarkOptions" body) in
  let line1 := finalWatermarkLine1 (get "watermarkLine1" body) in
  ∃ existingPdfBytes pdfDoc context0 context customFont page line1Width line1Height,
    Buffer_from_base64 (get "pdfBase64" body) = Return existingPdfBytes ∧
    PDFDocument_load existingPdfBytes = Return pdfDoc ∧
    registerFontkit (doc_context pdfDoc) = Return context0 ∧
    embedFont context0 (sarabunFontBytes (addWatermark readFile body g).1.1)
      = Return (context, customFont) ∧
    doc_pages pdfDoc !! i = Some page ∧
    widthOfTextAtSize customFont line1 (get "size" options) = Return line1Width ∧
    ToNumber (get "size" options) = Return line1Height ∧
    (∀ n, get "size" options = VNum n → line1Height = n) ∧
    degrees (get "rotate" options) = Return (draw_rotate o) ∧
    draw_font o = customFont ∧
    draw_color o = rgb 0.5 0.5 0.5 ∧
    draw_opacity o = get "opacity" options ∧
    (if Nat.even j then
       draw_x o = ((getSize page).1 / 2 - line1Width / 2)%float ∧
       draw_y o = ((getSize page).2 / 2 - line1Height / 2)%float ∧
       draw_size o = get "size" options
     else
       draw_x o = ((getSize page).1 / 2 - line1Width / 2 + -20)%float ∧
       draw_y o = ((getSize page).2 / 2 - line1Height / 2 + -30)%float ∧
       draw_size o = get "sizesubtitle" options).
Proof.
  intros Hj options line1.
  destruct (addWatermark_draws_full readFile body g)
    as [Hnil|(bs & doc & c0 & c & font & line2 & rot & w & half & Hbs & Hdoc & Hreg
              & Hfont & _ & Hrot & Hw & Hh & Hpre)]; [by rewrite Hnil in Hj|].
  pose proof (prefix_lookup_Some _ _ _ _ Hj Hpre) as Hj'.
  apply draw_calls_page_calls_lookup_inv in Hj' as (i' & page & Hi & Hcase).
  fold options in Hh. unfold js_div in Hh.
  destruct (ToNumber (get "size" options)) as [n|e] eqn:Hn; [|done].
  simpl in Hh. injection Hh as <-.
  assert (∀ n', get "size" options = VNum n' → n = n') as Hpin.
  { intros n' Hn'. rewrite Hn' in Hn. simpl in Hn. by injection Hn as ->. }
  exists bs, doc, c0, c, font, page, w, n.
  destruct Hcase as [[-> ?]|[-> ?]]; simplify_eq.
  - assert (Nat.even (2 * i') = true) as -> by (by rewrite Nat.even_mul).
    by split_and!.
  - assert (Nat.even (2 * i' + 1) = false) as ->.
    { by rewrite Nat.add_1_r, Nat.even_succ, <- Nat.negb_even, Nat.even_mul. }
    by split_and!.
Qed.

End Watermark.

(** ** The theorems at work on concrete requests *)

(** The demo collaborators are the ones meant from here on. *)
#[local] Existing Instance Demo.collaborators.

Ltac by_computation := vm_compute; reflexivity.

(** The conversions on values a JSON body can hold. *)
Example conversions_at_work :
  ToString (VArr [VStr "a"; VNull; VArr [VStr "b"; VStr "c"]]) = Return "a,,b,c" ∧
  ToString (VObj {[ "name" := VStr "x" ]}) = Return "[object Object]" ∧
  ToString (VObj {[ "toString" := VNum 1%float ]}) = Throw TypeError_to_primitive ∧
  ToString (VArr [VStr "a"; VObj {[ "toString" := VNull ]}])
    = Throw TypeError_to_primitive ∧
  ToNumber (VObj {[ "toString" := VNum 1%float ]}) = Throw TypeError_to_primitive ∧
  ToNumber (VArr [VObj {[ "toString" := VNum 1%float ]}])
    = Throw TypeError_to_primitive ∧
  js_div (VNum 30%float) 2 = Return 15%float.
Proof. split_and!; by_computation. Qed.

(** The demo collaborators keep what reading a reply back relies on. *)
Lemma demo_base64_round_trip : base64_round_trip.
Proof.
  intros b. unfold Buffer_from_base64, Buffer_toString_base64. simpl.
  by rewrite String.list_byte_of_string_of_list_byte.
Qed.

Lemma demo_save_keeps_page_count : save_keeps_page_count.
Proof.
  intros context pages out Hne Hsave.
  unfold save in Hsave. simpl in Hsave. unfold Demo.serialize in Hsave.
  destruct pages as [|page pages]; [done|]. injection Hsave as <-.
  eexists. split; [reflexivity|]. simpl. by rewrite !length_map.
Qed.

(** Two pages with a size of 30 from a cold start: the line-1 call on the
    second page, 15 below the centre. *)
Lemma line1_centred_witness :
  let run := addWatermark Demo.font_present Cases.small cold_start in
  run = (Demo.warm, run.1.2, Return (Demo.ok "%PP")) ∧
  ∃ o,
    draw_calls run.1.2 !! 2 = Some (1, VStr "CONFIDENTIAL", o) ∧
    draw_x o = 207.5%float ∧ draw_y o = 406%float ∧
    draw_size o = VNum 30 ∧ draw_opacity o = VNum 0.2 ∧
    draw_rotate o = (-45)%float ∧ draw_font o = Demo.font_bytes ∧
    draw_color o = rgb 0.5 0.5 0.5.
Proof.
  cbv zeta.
  set (run := addWatermark Demo.font_present Cases.small cold_start).
  assert (run = (Demo.warm, run.1.2, Return (Demo.ok "%PP"))) as Hrun
    by by_computation.
  assert (Buffer_from_base64 (get "pdfBase64" Cases.small)
          = Return [Byte.x25; Byte.x50; Byte.x50]) as Hbs by by_computation.
  assert (embedFont [] (sarabunFontBytes Demo.warm)
          = Return ([Demo.font_bytes], Demo.font_bytes)) as Hfont by by_computation.
  assert (get "size" (finalWatermarkOptions (get "watermarkOptions" Cases.small))
          = VNum 30) as Hsize by by_computation.
  split; [exact Hrun|].
  destruct (line1_centred_on_every_page (C:=Demo.collaborators)
              Demo.font_present Cases.small cold_start Demo.warm run.1.2
              (Demo.ok "%PP") _ Demo.two_pages [] _ _
              Hrun eq_refl Hbs eq_refl eq_refl Hfont 1 Demo.a4 eq_refl)
    as (w & rot & n & o & Hw & Hrot & Hn & Hcall & Hx & _ & Hpin & Hs & Hop & Hr
        & Hf & Hc).
  specialize (Hpin 30%float Hsize).
  revert Hw Hrot Hx Hpin Hs Hop Hr. vm_compute. intros Hw Hrot Hx Hpin Hs Hop Hr.
  injection Hw as <-. injection Hrot as <-.
  exists o. revert Hcall. vm_compute. intros Hcall. by split_and!.
Defined.

(** Jane Doe's two-page document: the two calls on the second page, 20 and
    30 apart. *)
Lemma line2_offset_witness :
  let run := addWatermark Demo.font_present Demo.jane cold_start in
  run = (Demo.warm, run.1.2, Return (Demo.ok "%PP")) ∧
  ∃ o1 o2,
    draw_calls run.1.2 !! 2 = Some (1, VStr "CONFIDENTIAL", o1) ∧
    draw_calls run.1.2 !! 3 = Some (1, VStr "Jane Doe", o2) ∧
    draw_x o1 = 102.5%float ∧ draw_y o1 = 388.5%float ∧
    draw_x o2 = 82.5%float ∧ draw_y o2 = 358.5%float ∧
    draw_size o2 = VNum 40 ∧ draw_opacity o2 = VNum 0 ∧
    draw_rotate o2 = (-45)%float.
Proof.
  cbv zeta.
  set (run := addWatermark Demo.font_present Demo.jane cold_start).
  assert (run = (Demo.warm, run.1.2, Return (Demo.ok "%PP"))) as Hrun
    by by_computation.
  assert (Buffer_from_base64 (get "pdfBase64" Demo.jane)
          = Return [Byte.x25; Byte.x50; Byte.x50]) as Hbs by by_computation.
  assert (embedFont [] (sarabunFontBytes Demo.warm)
          = Return ([Demo.font_bytes], Demo.font_bytes)) as Hfont by by_computation.
  split; [exact Hrun|].
  destruct (line2_offset_from_line1
              Demo.font_present Demo.jane cold_start Demo.warm run.1.2
              (Demo.ok "%PP") _ Demo.two_pages [] _ _
              Hrun eq_refl Hbs eq_refl eq_refl Hfont)
    as (line2 & Hline2 & Hpages).
  destruct (Hpages 1 Demo.a4 eq_refl)
    as (o1 & o2 & H1 & H2 & Hx & Hy & Hs & Hop & Hr & _).
  revert Hline2. vm_compute. intros Hline2. injection Hline2 as <-.
  exists o1, o2. revert H1 H2 Hx Hy Hs Hop Hr. vm_compute.
  intros H1 H2 Hx Hy Hs Hop Hr. injection H1 as <-.
  by split_and!.
Defined.

(** Only [opacity] and a property the handler does not know. *)
Lemma merge_field_independent_witness :
  let o : object := {[ "opacity" := VNum 0.5%float; "colour" := VStr "red" ]} in
  finalWatermarkOptions (VObj o) !! "size" = Some (VNum 65) ∧
  finalWatermarkOptions (VObj o) !! "opacity" = Some (VNum 0.5) ∧
  finalWatermarkOptions (VObj o) !! "colour" = Some (VStr "red").
Proof.
  cbv zeta.
  destruct (merge_field_independent
              {[ "opacity" := VNum 0.5%float; "colour" := VStr "red" ]})
    as (Hsize & Hopacity & _ & _ & Hother & _).
  split_and!.
  - exact Hsize.
  - exact Hopacity.
  - rewrite (Hother "colour"); [reflexivity|].
    intros Hin. repeat (apply elem_of_cons in Hin as [Hin|Hin]; [discriminate|]).
    by apply elem_of_nil in Hin.
Defined.

(** Jane Doe without a [watermarkLine1], and a first name that has no
    string. *)
Lemma watermark_lines_witness :
  let run := addWatermark Demo.font_present Cases.unprintable cold_start in
  Demo.jane !! "firstName" = Some (VStr "Jane") ∧
  Demo.jane !! "lastName" = Some (VStr "Doe") ∧
  Demo.jane !! "watermarkLine1" = None ∧
  finalWatermarkLine1 (get "watermarkLine1" Demo.jane) = VStr "CONFIDENTIAL" ∧
  finalWatermarkLine2 (get "firstName" Demo.jane) (get "lastName" Demo.jane)
  = Return (VStr "Jane Doe") ∧
  get "firstName" Cases.unprintable = VObj {[ "toString" := VNum 1%float ]} ∧
  finalWatermarkLine2 (get "firstName" Cases.unprintable)
    (get "lastName" Cases.unprintable)
  = Throw {| message := "Cannot convert object to primitive value" |} ∧
  draw_calls run.1.2 = [] ∧
  ∃ res, run.2 = Return res ∧ status res ≠ 200.
Proof.
  cbv zeta.
  assert (Demo.jane !! "firstName" = Some (VStr "Jane")) as Hf by by_computation.
  assert (Demo.jane !! "lastName" = Some (VStr "Doe")) as Hl by by_computation.
  assert (Demo.jane !! "watermarkLine1" = None) as Hno by by_computation.
  destruct (watermark_lines_resolved Demo.jane)
    as (_ & _ & _ & _ & _ & _ & _ & _ & Hjane & _).
  destruct (Hjane Hf Hl Hno) as [H1 H2].
  assert (get "firstName" Cases.unprintable = VObj {[ "toString" := VNum 1%float ]})
    as Hobj by by_computation.
  destruct (watermark_lines_resolved Cases.unprintable)
    as (_ & _ & _ & _ & _ & _ & Hthrow & _ & _ & _ & Hnone & _).
  specialize (Hthrow _ Hobj ltac:(by eexists)).
  destruct (Hnone _ Demo.font_present cold_start Hthrow) as [Hdraws Hres].
  by split_and!.
Defined.

(** A [watermarkLine1] that is supplied as the empty string is not what
    line 1 resolves to: ["CONFIDENTIAL"] is drawn. *)
Lemma line1_supplied_empty_counterexample :
  let run := addWatermark Demo.font_present Demo.blank cold_start in
  Demo.blank !! "watermarkLine1" = Some (VStr "") ∧
  finalWatermarkLine1 (get "watermarkLine1" Demo.blank) = VStr "CONFIDENTIAL" ∧
  finalWatermarkLine1 (get "watermarkLine1" Demo.blank) ≠ VStr "" ∧
  (λ c : nat * value * DrawTextOptions bytes float, (c.1.1, c.1.2))
    <$> draw_calls run.1.2 = [(0, VStr "CONFIDENTIAL"); (0, VStr " ")].
Proof.
  cbv zeta. split_and!; try by_computation.
  vm_compute. discriminate.
Defined.

(** The same request, and the request without the property. *)
Lemma empty_string_witness :
  Demo.blank !! "watermarkLine1" = Some (VStr "") ∧
  finalWatermarkLine1 (get "watermarkLine1" Demo.blank) = VStr "CONFIDENTIAL" ∧
  addWatermark Demo.font_present Demo.blank =
  addWatermark Demo.font_present (delete "watermarkLine1" Demo.blank).
Proof.
  assert (Demo.blank !! "watermarkLine1" = Some (VStr "")) as Hk by by_computation.
  destruct (empty_string_as_absent Demo.font_present Demo.blank) as (Hline1 & _ & _).
  destruct (Hline1 Hk) as [H1 H2]. by split_and!.
Defined.

(** Two pages in, two pages out, four draw calls in page order. *)
Lemma page_count_witness :
  let run := addWatermark Demo.font_present Demo.jane cold_start in
  run = (Demo.warm, run.1.2, Return (Demo.ok "%PP")) ∧
  length (doc_pages Demo.two_pages) = 2 ∧
  (∃ responseDoc,
     response_document (Demo.ok "%PP") = Return responseDoc ∧
     length (doc_pages responseDoc) = 2) ∧
  ∃ pages : list Demo.page,
    length pages = 2 ∧
    (λ c : nat * value * DrawTextOptions bytes float, (c.1.1, c.1.2))
      <$> draw_calls run.1.2 =
    [(0, VStr "CONFIDENTIAL"); (0, VStr "Jane Doe");
     (1, VStr "CONFIDENTIAL"); (1, VStr "Jane Doe")].
Proof.
  cbv zeta.
  set (run := addWatermark Demo.font_present Demo.jane cold_start).
  assert (run = (Demo.warm, run.1.2, Return (Demo.ok "%PP"))) as Hrun
    by by_computation.
  assert (Buffer_from_base64 (get "pdfBase64" Demo.jane)
          = Return [Byte.x25; Byte.x50; Byte.x50]) as Hbs by by_computation.
  split; [exact Hrun|]. split; [reflexivity|].
  destruct (page_count_preserved
              Demo.font_present Demo.jane cold_start Demo.warm run.1.2
              (Demo.ok "%PP") _ Demo.two_pages Hrun eq_refl Hbs eq_refl)
    as (line2 & context & pages & out & Hline2 & Hsave & Hjson & Hlen & Hcalls
        & Hpages & Hback).
  destruct (Hback demo_base64_round_trip demo_save_keeps_page_count
              ltac:(discriminate)) as (responseDoc & Hdoc & Hcount).
  split; [by exists responseDoc|].
  exists pages. split; [exact Hlen|].
  revert Hline2 Hcalls. vm_compute. intros Hline2. by injection Hline2 as <-.
Defined.



(** No [pdfBase64], with the font loaded and with a font that loads. *)
Lemma missing_pdf_witness :
  Demo.no_pdf !! "pdfBase64" = None ∧
  addWatermark Demo.font_missing Demo.no_pdf Demo.warm =
  (Demo.warm, [],
   Return {| status := 400;
             json := VObj {[ "error" := VStr "PDF data (pdfBase64) is required." ]} |}) ∧
  addWatermark Demo.font_present Demo.no_pdf cold_start =
  (Demo.warm,
   [fs_readFile fontPath; console_log "Sarabun font loaded successfully."],
   Return {| status := 400;
             json := VObj {[ "error" := VStr "PDF data (pdfBase64) is required." ]} |}).
Proof.
  assert (Demo.no_pdf !! "pdfBase64" = None) as Hno by by_computation.
  split; [exact Hno|]. split.
  - destruct (missing_pdf_rejected Demo.font_missing Demo.no_pdf Demo.warm Hno)
      as (Hwarm & _ & _).
    apply Hwarm. reflexivity.
  - destruct (missing_pdf_rejected Demo.font_present Demo.no_pdf cold_start Hno)
      as (_ & Hcold & _).
    apply (Hcold Demo.font_bytes); reflexivity.
Defined.

(** No [pdfBase64], the font not loaded and the file unreadable: the answer
    is the font guard's 500, not 400. *)
Lemma missing_pdf_cold_font_counterexample :
  let run := addWatermark Demo.font_missing Demo.no_pdf cold_start in
  Demo.no_pdf !! "pdfBase64" = None ∧
  run.2 =
  Return {| status := 500;
            json := VObj {[ "error" := VStr
              "Failed to load Sarabun font: ENOENT: no such file or directory, open 'sarabun.ttf'" ]} |} ∧
  ∃ res, run.2 = Return res ∧ status res ≠ 400.
Proof.
  cbv zeta. split; [by_computation|]. split; [by_computation|].
  eexists. split; [by_computation|]. vm_compute. discriminate.
Defined.

(** A failed read, then a successful one, then a request that needs no
    read even though the file is gone again. *)
Lemma font_loader_witness :
  sarabunFontLoaded cold_start = false ∧
  Demo.font_missing fontPath =
    Throw {| message := "ENOENT: no such file or directory, open 'sarabun.ttf'" |} ∧
  Demo.font_present fontPath = Return Demo.font_bytes ∧
  (addWatermark Demo.font_missing Demo.jane cold_start).1.1 = cold_start ∧
  (addWatermark Demo.font_present Demo.jane cold_start).1.1 = Demo.warm ∧
  (serve [(Demo.font_missing, Demo.jane); (Demo.font_present, Demo.jane);
          (Demo.font_missing, Demo.jane)] cold_start).1 = Demo.warm ∧
  (λ out : list event * completion response, file_reads out.1)
    <$> (serve [(Demo.font_missing, Demo.jane); (Demo.font_present, Demo.jane);
                (Demo.font_missing, Demo.jane)] cold_start).2
  = [[fontPath]; [fontPath]; []].
Proof.
  assert (sarabunFontLoaded cold_start = false) as Hcold by reflexivity.
  destruct (font_loader_lazy_with_retry Demo.font_missing Demo.jane cold_start Hcold)
    as (_ & _ & Hfail).
  destruct (Hfail _ eq_refl) as [Hsame _].
  destruct (font_loader_lazy_with_retry Demo.font_present Demo.jane cold_start Hcold)
    as (_ & Hload & _).
  destruct (Hload _ eq_refl) as [Hwarm _].
  split_and!.
  - exact Hcold.
  - reflexivity.
  - reflexivity.
  - by rewrite Hsame.
  - exact Hwarm.
  - by_computation.
  - by_computation.
Defined.


(** ** The further properties at work *)

(** An empty string for a document, font loaded. *)
Lemma falsy_pdf_witness :
  Cases.empty_pdf !! "pdfBase64" = Some (VStr "") ∧
  ToBoolean (VStr "") = false ∧
  addWatermark Demo.font_missing Cases.empty_pdf Demo.warm =
  (Demo.warm, [],
   Return {| status := 400;
             json := VObj {[ "error" := VStr "PDF data (pdfBase64) is required." ]} |}).
Proof.
  assert (Cases.empty_pdf !! "pdfBase64" = Some (VStr "")) as Hv by by_computation.
  split; [exact Hv|]. split; [reflexivity|].
  exact (falsy_pdf_rejected Demo.font_missing Cases.empty_pdf Demo.warm (VStr "")
           Hv eq_refl eq_refl).
Defined.

(** [null] options and a [false] first name. *)
Lemma falsy_property_witness :
  Cases.nulls !! "watermarkOptions" = Some VNull ∧
  Cases.nulls !! "firstName" = Some (VBool false) ∧
  addWatermark Demo.font_present Cases.nulls =
  addWatermark Demo.font_present (delete "watermarkOptions" Cases.nulls) ∧
  addWatermark Demo.font_present Cases.nulls =
  addWatermark Demo.font_present (delete "firstName" Cases.nulls).
Proof.
  assert (Cases.nulls !! "watermarkOptions" = Some VNull) as Ho by by_computation.
  assert (Cases.nulls !! "firstName" = Some (VBool false)) as Hf by by_computation.
  split; [exact Ho|]. split; [exact Hf|]. split.
  - apply (falsy_property_as_absent Demo.font_present "watermarkOptions"
             Cases.nulls VNull); [|exact Ho|reflexivity].
    repeat (first [apply list_elem_of_here | apply list_elem_of_further]).
  - apply (falsy_property_as_absent Demo.font_present "firstName"
             Cases.nulls (VBool false)); [|exact Hf|reflexivity].
    repeat (first [apply list_elem_of_here | apply list_elem_of_further]).
Defined.

(** A failed load, a successful one, a request that fails in parsing. *)
Lemma cache_consistent_witness :
  let requests := [(Demo.font_missing, Demo.jane); (Demo.font_present, Demo.jane);
                   (Demo.font_missing, Demo.garbage)] in
  cache_consistent cold_start ∧
  cache_consistent (serve requests cold_start).1 ∧
  (serve requests cold_start).1 = Demo.warm ∧
  (λ out : list event * completion response, embed_calls out.1)
    <$> (serve requests cold_start).2 = [[]; [Some Demo.font_bytes]; []].
Proof.
  cbv zeta.
  assert (cache_consistent cold_start) as Hc.
  { split; [discriminate|]. intros [b Hb]. discriminate. }
  destruct (cache_stays_consistent
              [(Demo.font_missing, Demo.jane); (Demo.font_present, Demo.jane);
               (Demo.font_missing, Demo.garbage)] cold_start Hc) as [Hc' _].
  split; [exact Hc|]. split; [exact Hc'|]. split; by_computation.
Defined.

(** Start-up with and without the font file. *)
Lemma startup_witness :
  sarabunFontLoaded cold_start = false ∧
  startup Demo.font_present cold_start =
    (Demo.warm,
     [fs_readFile fontPath; console_log "Sarabun font loaded successfully."],
     Return tt) ∧
  file_reads (addWatermark Demo.font_missing Demo.jane Demo.warm).1.2 = [] ∧
  (startup Demo.font_missing cold_start).1.1 = cold_start ∧
  file_reads (addWatermark Demo.font_present Demo.jane cold_start).1.2 = [fontPath].
Proof.
  assert (sarabunFontLoaded cold_start = false) as Hl by reflexivity.
  destruct (startup_then_first_request Demo.font_present Demo.font_missing
              Demo.jane cold_start Hl) as [Hok _].
  destruct (Hok Demo.font_bytes eq_refl) as (Hstart & _ & Hreads & _).
  destruct (startup_then_first_request Demo.font_missing Demo.font_present
              Demo.jane cold_start Hl) as [_ Hfail].
  destruct (Hfail _ eq_refl) as (Hstart' & Hreads').
  split; [exact Hl|]. split; [exact Hstart|]. split; [exact Hreads|].
  split; [by rewrite Hstart'|exact Hreads'].
Defined.

(** Two pages, line 2 cannot be drawn: the request stops after the second
    call on the first page. *)
Lemma draws_in_page_order_witness :
  let run := addWatermark (C:=Cases.strict) Demo.font_present Cases.anonymous cold_start in
  ∃ o details,
    run.2 = Return {| status := 500;
                      json := VObj {[ "error" := VStr "Failed to generate watermarked PDF";
                                      "details" := VStr details ]} |} ∧
    length (draw_calls run.1.2) = 2 ∧
    draw_calls run.1.2 !! 1 = Some (0, VStr " ", o) ∧
    0 = 1 `div` 2 ∧
    Return (VStr " ") =
      finalWatermarkLine2 (C:=Cases.strict)
        (get "firstName" Cases.anonymous) (get "lastName" Cases.anonymous).
Proof.
  cbv zeta.
  assert (∃ o, draw_calls (addWatermark (C:=Cases.strict) Demo.font_present
                 Cases.anonymous cold_start).1.2 !! 1 = Some (0, VStr " ", o))
    as [o Ho] by (eexists; by_computation).
  destruct (draws_in_page_order (C:=Cases.strict) Demo.font_present Cases.anonymous
              cold_start 1 0 (VStr " ") o Ho) as [Hi Htext].
  exists o, "nothing to draw". split; [by_computation|]. split; [by_computation|].
  split; [exact Ho|]. split; [exact Hi|exact Htext].
Defined.


(** A [userId] and a [color] change nothing. *)
Lemma unread_properties_witness :
  Demo.jane !! "userId" = None ∧
  Cases.jane_with_extras !! "userId" = Some (VNum 7) ∧
  addWatermark Demo.font_present Cases.jane_with_extras cold_start =
  addWatermark Demo.font_present Demo.jane cold_start.
Proof.
  split; [by_computation|]. split; [by_computation|].
  apply unread_properties_ignored.
  - intros k Hk.
    repeat (apply elem_of_cons in Hk as [->|Hk]; [by_computation|]).
    by apply elem_of_nil in Hk.
  - intros k Hk.
    repeat (apply elem_of_cons in Hk as [->|Hk]; [by_computation|]).
    by apply elem_of_nil in Hk.
Defined.

(** The two A4 pages of Jane Doe's document. *)
Lemma same_size_witness :
  let run := addWatermark Demo.font_present Demo.jane cold_start in
  run = (Demo.warm, run.1.2, Return (Demo.ok "%PP")) ∧
  getSize Demo.a4 = getSize Demo.a4 ∧
  ∃ text1 text2 o1 o2,
    draw_calls run.1.2 !! 0 = Some (0, text1, o1) ∧
    draw_calls run.1.2 !! 2 = Some (1, text1, o1) ∧
    draw_calls run.1.2 !! 1 = Some (0, text2, o2) ∧
    draw_calls run.1.2 !! 3 = Some (1, text2, o2).
Proof.
  cbv zeta.
  set (run := addWatermark Demo.font_present Demo.jane cold_start).
  assert (run = (Demo.warm, run.1.2, Return (Demo.ok "%PP"))) as Hrun
    by by_computation.
  assert (Buffer_from_base64 (get "pdfBase64" Demo.jane)
          = Return [Byte.x25; Byte.x50; Byte.x50]) as Hbs by by_computation.
  split; [exact Hrun|]. split; [reflexivity|].
  exact (same_size_same_placement Demo.font_present Demo.jane cold_start
           Demo.warm run.1.2 (Demo.ok "%PP") _ Demo.two_pages
           Hrun eq_refl Hbs eq_refl 0 1 Demo.a4 Demo.a4 eq_refl eq_refl eq_refl).
Defined.

(** Jane Doe and John Smith: different calls, same pages and options. *)
Lemma names_witness :
  let jane := addWatermark Demo.font_present Demo.jane cold_start in
  let john := addWatermark Demo.font_present Cases.john cold_start in
  jane = (Demo.warm, jane.1.2, Return (Demo.ok "%PP")) ∧
  john = (Demo.warm, john.1.2, Return (Demo.ok "%PP")) ∧
  draw_calls jane.1.2 ≠ draw_calls john.1.2 ∧
  (λ c : nat * value * DrawTextOptions bytes float, (c.1.1, c.2))
    <$> draw_calls jane.1.2 =
  (λ c : nat * value * DrawTextOptions bytes float, (c.1.1, c.2))
    <$> draw_calls john.1.2.
Proof.
  cbv zeta.
  set (jane := addWatermark Demo.font_present Demo.jane cold_start).
  set (john := addWatermark Demo.font_present Cases.john cold_start).
  assert (jane = (Demo.warm, jane.1.2, Return (Demo.ok "%PP"))) as Hjane
    by by_computation.
  assert (john = (Demo.warm, john.1.2, Return (Demo.ok "%PP"))) as Hjohn
    by by_computation.
  split; [exact Hjane|]. split; [exact Hjohn|]. split.
  { vm_compute. discriminate. }
  apply (names_only_change_line2_text Demo.font_present Demo.jane Cases.john
           cold_start Demo.warm jane.1.2 (Demo.ok "%PP")
           Demo.warm john.1.2 (Demo.ok "%PP")); [|exact Hjane|exact Hjohn|done|done].
  intros k Hk.
  repeat (apply elem_of_cons in Hk as [->|Hk]; [by_computation|]).
  by apply elem_of_nil in Hk.
Defined.

(** Sizes of 30 and 12, and a line 2 that cannot be drawn: the line-2
    call of the request that fails on it. *)
Lemma every_draw_call_witness :
  let run := addWatermark (C:=Cases.strict) Demo.font_present Cases.small cold_start in
  status <$> (match run.2 with Return res => Some res | Throw _ => None end) = Some 500 ∧
  ∃ o,
    draw_calls run.1.2 !! 1 = Some (0, VStr " ", o) ∧
    draw_x o = 187.5%float ∧ draw_y o = 376%float ∧
    draw_size o = VNum 12 ∧ draw_opacity o = VNum 0.2 ∧
    draw_font o = Demo.font_bytes ∧ draw_color o = rgb 0.5 0.5 0.5.
Proof.
  cbv zeta.
  set (run := addWatermark (C:=Cases.strict) Demo.font_present Cases.small cold_start).
  split; [by_computation|].
  assert (∃ o, draw_calls run.1.2 !! 1 = Some (0, VStr " ", o))
    as [o Ho] by (eexists; by_computation).
  destruct (every_draw_call_placed (C:=Cases.strict) Demo.font_present
              Cases.small cold_start 1 0 (VStr " ") o Ho)
    as (bs & doc & c0 & c & font & page & w & n & Hbs & Hdoc & Hreg & Hfont & Hpage
        & Hw & Hn & Hpin & Hrot & Hf & Hc & Hop & Hx & Hy & Hs).
  assert (n = 30%float) as ->.
  { apply Hpin. by_computation. }
  revert Hbs. vm_compute. intros Hbs. injection Hbs as <-.
  revert Hdoc. vm_compute. intros Hdoc. injection Hdoc as <-.
  revert Hreg. vm_compute. intros Hreg. injection Hreg as <-.
  revert Hfont. vm_compute. intros Hfont. injection Hfont as <- <-.
  revert Hpage. vm_compute. intros Hpage. injection Hpage as <-.
  revert Hw. vm_compute. intros Hw. injection Hw as <-.
  revert Hx Hy Hs Hop Hc. vm_compute. intros Hx Hy Hs Hop Hc.
  exists o. by split_and!.
Defined.

(** Jane Doe's request: everything before the [save] is setup and the four
    draw calls, and nothing comes after it. *)
Lemma save_after_draws_witness :
  let run := addWatermark Demo.font_present Demo.jane cold_start in
  save_calls run.1.2 = [tt] ∧
  ∃ before after,
    run.1.2 = before ++ call_save :: after ∧
    save_calls before = [] ∧
    length (draw_calls before) = 4.
Proof.
  cbv zeta.
  set (run := addWatermark Demo.font_present Demo.jane cold_start).
  assert (save_calls run.1.2 = [tt]) as Hone by by_computation.
  split; [exact Hone|].
  destruct (save_only_after_all_draws Demo.font_present Demo.jane cold_start)
    as [Hnil|(before & after & bs & doc & line2 & Htr & Hbefore & _ & Hbs & Hdoc
              & _ & _ & Hlen)].
  { fold run in Hnil. rewrite Hone in Hnil. discriminate. }
  exists before, after.
  revert Hbs. vm_compute. intros Hbs. injection Hbs as <-.
  revert Hdoc. vm_compute. intros Hdoc. injection Hdoc as <-.
  by split_and!.
Defined.
